(** * Request and response schemas of the RAG question-answering service

    Shallow embedding of [app/api/schemas.py].  Every pydantic model of
    the source becomes a record together with a validator that maps the
    raw Python value handed to the model (a dict of field values) to
    either the validated record or the list of field errors.  Each
    [Field] line of a validator mirrors one annotated attribute of the
    corresponding class. *)

From Stdlib Require Import List String Ascii ZArith Bool Arith Lia.
From Stdlib Require Import PrimFloat SpecFloat FloatOps.
Import ListNotations.

#[local] Set Warnings "-register-all".

Open Scope string_scope.
Open Scope list_scope.

(** ** Python values *)

(** The values a model can be given: [None], booleans, integers,
    binary64 floats, strings, lists and dicts with string keys.  A
    [string] stands for a Python [str], one [ascii] per character; a
    dict is an association list in which a key is looked up at its
    first binding. *)
Inductive value : Type :=
| VNone
| VBool (b : bool)
| VInt (z : Z)
| VFloat (f : float)
| VStr (s : string)
| VList (l : list value)
| VDict (d : list (string * value)).

Definition pydict : Type := list (string * value).

Fixpoint lookup (k : string) (d : pydict) : option value :=
  match d with
  | [] => None
  | (k', v) :: d' => if String.eqb k k' then Some v else lookup k d'
  end.

(** [float(z)] of a Python integer: the nearest binary64 value, ties to
    even; the conversion overflows to an infinity. *)
Definition float_of_Z (z : Z) : float :=
  SF2Prim (binary_normalize prec emax z 0 false).

(** ** Validation results *)

Inductive error_type : Type :=
| missing
| string_type
| string_too_short
| string_too_long
| bool_type
| bool_parsing
| float_type
| float_parsing
| greater_than_equal
| less_than_equal
| dict_type
| list_type
| model_type.

Inductive loc_item : Type :=
| Key (name : string)
| Index (i : nat).

(** One entry of [ValidationError.errors()]. *)
Record error_details : Type := mk_error {
  loc : list loc_item;
  type : error_type
}.

Inductive result (A : Type) : Type :=
| Ok (a : A)
| ValidationError (errors : list error_details).

Arguments Ok {A} a.
Arguments ValidationError {A} errors.

Definition is_ok {A} (r : result A) : bool :=
  match r with
  | Ok _ => true
  | ValidationError _ => false
  end.

Definition errors_of {A} (r : result A) : list error_details :=
  match r with
  | Ok _ => []
  | ValidationError es => es
  end.

Definition fail {A} (t : error_type) : result A :=
  ValidationError [mk_error [] t].

(** Validation does not stop at the first invalid field: the errors of
    all fields are collected, in field order. *)
Definition fmap {A B} (f : A -> B) (r : result A) : result B :=
  match r with
  | Ok a => Ok (f a)
  | ValidationError es => ValidationError es
  end.

Definition ap {A B} (rf : result (A -> B)) (ra : result A) : result B :=
  match rf, ra with
  | Ok f, Ok a => Ok (f a)
  | Ok _, ValidationError es => ValidationError es
  | ValidationError es, Ok _ => ValidationError es
  | ValidationError es1, ValidationError es2 => ValidationError (es1 ++ es2)
  end.

Notation "f <$> r" := (fmap f r) (at level 61, left associativity).
Notation "rf <*> ra" := (ap rf ra) (at level 61, left associativity).

(** Prefix the location of every error with the place it was found at. *)
Definition at_loc {A} (i : loc_item) (r : result A) : result A :=
  match r with
  | Ok a => Ok a
  | ValidationError es =>
      ValidationError (map (fun e => mk_error (i :: loc e) (type e)) es)
  end.

(** ** Field validators *)

Definition check_min_length (min_length : option nat) (s : string) : bool :=
  match min_length with
  | Some n => (n <=? String.length s)%nat
  | None => true
  end.

Definition check_max_length (max_length : option nat) (s : string) : bool :=
  match max_length with
  | Some n => (String.length s <=? n)%nat
  | None => true
  end.

(** [str], with the optional [min_length] and [max_length] constraints. *)
Definition str_validator (min_length max_length : option nat) (v : value)
  : result string :=
  match v with
  | VStr s =>
      if negb (check_min_length min_length s) then fail string_too_short
      else if negb (check_max_length max_length s) then fail string_too_long
      else Ok s
  | _ => fail string_type
  end.

Definition lower_ascii (c : ascii) : ascii :=
  let n := nat_of_ascii c in
  if ((65 <=? n) && (n <=? 90))%nat then ascii_of_nat (n + 32) else c.

Fixpoint lower (s : string) : string :=
  match s with
  | EmptyString => EmptyString
  | String c s' => String (lower_ascii c) (lower s')
  end.

Definition str_in (s : string) (l : list string) : bool :=
  existsb (String.eqb s) l.

(** Whether a float is a whole number. *)
Definition is_whole (f : float) : bool :=
  match Prim2SF f with
  | S754_zero _ => true
  | S754_finite _ m e => ((0 <=? e) || (Z.pos m mod 2 ^ (- e) =? 0))%Z
  | _ => false
  end.

(** The range of the 64-bit integers, for an integer and for a float. *)
Definition fits_int64 (z : Z) : bool :=
  ((- 2 ^ 63 <=? z) && (z <? 2 ^ 63))%Z.

Definition float_fits_int64 (f : float) : bool :=
  ((-9223372036854775808 <? f) && (f <? 9223372036854775808))%float.

(** [bool]: besides booleans, the integers and floats 0 and 1 and the
    usual spellings of true and false are converted.  Another 64-bit
    integer, another whole float of that range and another string are
    reported as [bool_parsing]; everything else, a larger integer and a
    float that is not whole or not finite included, as [bool_type]. *)
Definition bool_validator (v : value) : result bool :=
  match v with
  | VBool b => Ok b
  | VInt z =>
      if fits_int64 z then
        if (z =? 0)%Z then Ok false
        else if (z =? 1)%Z then Ok true
        else fail bool_parsing
      else fail bool_type
  | VFloat f =>
      if is_whole f && float_fits_int64 f then
        if (f =? 0)%float then Ok false
        else if (f =? 1)%float then Ok true
        else fail bool_parsing
      else fail bool_type
  | VStr s =>
      if str_in (lower s) ["0"; "off"; "f"; "false"; "n"; "no"] then Ok false
      else if str_in (lower s) ["1"; "on"; "t"; "true"; "y"; "yes"] then Ok true
      else fail bool_parsing
  | _ => fail bool_type
  end.

(** The comparison of a bound with [nan] is false, so a bounded field
    does not accept [nan]. *)
Definition check_le (le : option float) (f : float) : bool :=
  match le with
  | Some b => (f <=? b)%float
  | None => true
  end.

Definition check_ge (ge : option float) (f : float) : bool :=
  match ge with
  | Some b => (b <=? f)%float
  | None => true
  end.

Definition check_bounds (ge le : option float) (f : float) : result float :=
  if negb (check_le le f) then fail less_than_equal
  else if negb (check_ge ge f) then fail greater_than_equal
  else Ok f.

(** [0.0 <= f <= 1.0], as Python compares floats. *)
Definition in_unit_interval (f : float) : bool :=
  ((0 <=? f) && (f <=? 1))%float.

(** The conversion of a numeric string to a float is the library's
    own.  Validation is defined over any such conversion, and its
    properties hold whatever strings convert, and to whatever floats. *)
Class FloatParser : Type := {
  parse_float : string -> option float
}.

(** The float a value is read as: a float is itself, an integer and a
    boolean are converted, a numeric string is parsed.  An integer too
    large for a float is not a valid number, and a string that does not
    parse is reported as [float_parsing]. *)
Definition to_float {parser : FloatParser} (v : value) : result float :=
  match v with
  | VFloat f => Ok f
  | VInt z =>
      let f := float_of_Z z in
      if is_infinity f then fail float_type else Ok f
  | VBool b => Ok (if b then 1%float else 0%float)
  | VStr s =>
      match parse_float s with
      | Some f => Ok f
      | None => fail float_parsing
      end
  | _ => fail float_type
  end.

(** [float], with the optional [ge] and [le] constraints, checked on
    the float the value is read as. *)
Definition float_validator {parser : FloatParser} (ge le : option float)
  (v : value) : result float :=
  match to_float v with
  | Ok f => check_bounds ge le f
  | ValidationError es => ValidationError es
  end.

(** [dict] and [dict[str, Any]]: any dict, unchanged. *)
Definition dict_validator (v : value) : result pydict :=
  match v with
  | VDict d => Ok d
  | _ => fail dict_type
  end.

(** [T | None]. *)
Definition nullable {A} (validator : value -> result A) (v : value)
  : result (option A) :=
  match v with
  | VNone => Ok None
  | _ => Some <$> validator v
  end.

Fixpoint validate_items {A} (validator : value -> result A) (i : nat)
  (l : list value) : result (list A) :=
  match l with
  | [] => Ok []
  | v :: l' =>
      cons <$> at_loc (Index i) (validator v)
           <*> validate_items validator (S i) l'
  end.

(** [list[T]]. *)
Definition list_validator {A} (validator : value -> result A) (v : value)
  : result (list A) :=
  match v with
  | VList l => validate_items validator 0 l
  | _ => fail list_type
  end.

(** The first argument of [Field]: [...] for a required field, or the
    default used, as it is, when the field is not given. *)
Inductive FieldDefault (A : Type) : Type :=
| Required
| Default (a : A).

Arguments Required {A}.
Arguments Default {A} a.

(** An annotated attribute of a model: its name, its default and the
    validator of its annotation with the constraints of its [Field]. *)
Record FieldInfo (A : Type) : Type := Field {
  name : string;
  default : FieldDefault A;
  validator : value -> result A
}.

Arguments Field {A} name default validator.
Arguments name {A} f.
Arguments default {A} f.
Arguments validator {A} f.

Definition read {A} (f : FieldInfo A) (data : pydict) : result A :=
  match lookup (name f) data with
  | Some v => at_loc (Key (name f)) (validator f v)
  | None =>
      match default f with
      | Required => ValidationError [mk_error [Key (name f)] missing]
      | Default a => Ok a
      end
  end.

(** A model is validated from a dict; fields the model does not declare
    are ignored. *)
Definition model {A} (fields : pydict -> result A) (v : value) : result A :=
  match v with
  | VDict data => fields data
  | _ => fail model_type
  end.

(** ** Health schemas *)

Module ReadinessResponse.

Record t : Type := mk {
  status : string;
  qdrant_connected : bool;
  collection_info : pydict
}.

Definition status_field : FieldInfo string :=
  Field "status" Required (str_validator None None).
Definition qdrant_connected_field : FieldInfo bool :=
  Field "qdrant_connected" Required bool_validator.
Definition collection_info_field : FieldInfo pydict :=
  Field "collection_info" Required dict_validator.

Definition validate : value -> result t :=
  model (fun data =>
    mk <$> read status_field data
       <*> read qdrant_connected_field data
       <*> read collection_info_field data).

End ReadinessResponse.

(** ** Document schemas *)

Module DocumentInfo.

Record t : Type := mk {
  source : string;
  metadata : pydict
}.

Definition source_field : FieldInfo string :=
  Field "source" Required (str_validator None None).
(** [default_factory=dict]: a new, empty dict for each instance. *)
Definition metadata_field : FieldInfo pydict :=
  Field "metadata" (Default []) dict_validator.

Definition validate : value -> result t :=
  model (fun data =>
    mk <$> read source_field data
       <*> read metadata_field data).

End DocumentInfo.

(** ** Query schemas *)

Module QueryRequest.

Record t : Type := mk {
  question : string;
  include_sources : bool;
  enable_evaluation : bool
}.

Definition question_field : FieldInfo string :=
  Field "question" Required (str_validator (Some 1) (Some 1000)).
Definition include_sources_field : FieldInfo bool :=
  Field "include_sources" (Default true) bool_validator.
Definition enable_evaluation_field : FieldInfo bool :=
  Field "enable_evaluation" (Default false) bool_validator.

Definition validate : value -> result t :=
  model (fun data =>
    mk <$> read question_field data
       <*> read include_sources_field data
       <*> read enable_evaluation_field data).

(** [model_dump()]: the fields of an instance, as a dict. *)
Definition model_dump (q : t) : value :=
  VDict [("question", VStr (question q));
         ("include_sources", VBool (include_sources q));
         ("enable_evaluation", VBool (enable_evaluation q))].

End QueryRequest.

Module SourceDocument.

Record t : Type := mk {
  content : string;
  metadata : pydict
}.

Definition content_field : FieldInfo string :=
  Field "content" Required (str_validator None None).
Definition metadata_field : FieldInfo pydict :=
  Field "metadata" Required dict_validator.

Definition validate : value -> result t :=
  model (fun data =>
    mk <$> read content_field data
       <*> read metadata_field data).

(** [model_dump()]: the fields of an instance, as a dict. *)
Definition model_dump (d : t) : value :=
  VDict [("content", VStr (content d));
         ("metadata", VDict (metadata d))].

End SourceDocument.

Module EvaluationScores.

Record t : Type := mk {
  faithfulness : option float;
  answer_relevancy : option float;
  evaluation_time_ms : option float;
  error : option string
}.

Definition faithfulness_field {parser : FloatParser}
  : FieldInfo (option float) :=
  Field "faithfulness" (Default None)
    (nullable (float_validator (Some 0%float) (Some 1%float))).
Definition answer_relevancy_field {parser : FloatParser}
  : FieldInfo (option float) :=
  Field "answer_relevancy" (Default None)
    (nullable (float_validator (Some 0%float) (Some 1%float))).
Definition evaluation_time_ms_field {parser : FloatParser}
  : FieldInfo (option float) :=
  Field "evaluation_time_ms" (Default None)
    (nullable (float_validator None None)).
Definition error_field : FieldInfo (option string) :=
  Field "error" (Default None) (nullable (str_validator None None)).

Definition validate {parser : FloatParser} : value -> result t :=
  model (fun data =>
    mk <$> read faithfulness_field data
       <*> read answer_relevancy_field data
       <*> read evaluation_time_ms_field data
       <*> read error_field data).

Definition dump_optional {A} (dump : A -> value) (o : option A) : value :=
  match o with
  | Some a => dump a
  | None => VNone
  end.

(** [model_dump()]: the fields of an instance, as a dict. *)
Definition model_dump (e : t) : value :=
  VDict [("faithfulness", dump_optional VFloat (faithfulness e));
         ("answer_relevancy", dump_optional VFloat (answer_relevancy e));
         ("evaluation_time_ms", dump_optional VFloat (evaluation_time_ms e));
         ("error", dump_optional VStr (error e))].

End EvaluationScores.

Module QueryResponse.

Record t : Type := mk {
  question : string;
  answer : string;
  sources : option (list SourceDocument.t);
  processing_time_ms : float;
  evaluation : option EvaluationScores.t
}.

Definition question_field : FieldInfo string :=
  Field "question" Required (str_validator None None).
Definition answer_field : FieldInfo string :=
  Field "answer" Required (str_validator None None).
Definition sources_field : FieldInfo (option (list SourceDocument.t)) :=
  Field "sources" (Default None)
    (nullable (list_validator SourceDocument.validate)).
Definition processing_time_ms_field {parser : FloatParser}
  : FieldInfo float :=
  Field "processing_time_ms" Required (float_validator None None).
Definition evaluation_field {parser : FloatParser}
  : FieldInfo (option EvaluationScores.t) :=
  Field "evaluation" (Default None) (nullable EvaluationScores.validate).

Definition validate {parser : FloatParser} : value -> result t :=
  model (fun data =>
    mk <$> read question_field data
       <*> read answer_field data
       <*> read sources_field data
       <*> read processing_time_ms_field data
       <*> read evaluation_field data).

(** [model_dump()]: the fields of an instance, as a dict, the nested
    models dumped in turn. *)
Definition model_dump (r : t) : value :=
  VDict [("question", VStr (question r));
         ("answer", VStr (answer r));
         ("sources",
          EvaluationScores.dump_optional
            (fun l => VList (map SourceDocument.model_dump l)) (sources r));
         ("processing_time_ms", VFloat (processing_time_ms r));
         ("evaluation",
          EvaluationScores.dump_optional
            EvaluationScores.model_dump (evaluation r))].

End QueryResponse.

(** ** Error schemas *)

Module ErrorResponse.

Record t : Type := mk {
  error : string;
  message : string;
  detail : option string
}.

Definition error_field : FieldInfo string :=
  Field "error" Required (str_validator None None).
Definition message_field : FieldInfo string :=
  Field "message" Required (str_validator None None).
Definition detail_field : FieldInfo (option string) :=
  Field "detail" (Default None) (nullable (str_validator None None)).

Definition validate : value -> result t :=
  model (fun data =>
    mk <$> read error_field data
       <*> read message_field data
       <*> read detail_field data).

End ErrorResponse.

Module ValidationErrorResponse.

Record t : Type := mk {
  error : string;
  message : string;
  errors : list pydict
}.

Definition error_field : FieldInfo string :=
  Field "error" (Default "Validation Error") (str_validator None None).
Definition message_field : FieldInfo string :=
  Field "message" Required (str_validator None None).
Definition errors_field : FieldInfo (list pydict) :=
  Field "errors" Required (list_validator dict_validator).

Definition validate : value -> result t :=
  model (fun data =>
    mk <$> read error_field data
       <*> read message_field data
       <*> read errors_field data).

End ValidationErrorResponse.

(** * The query pipeline *)

(** The source holds the schemas only.  The pipeline that fills a
    [QueryResponse] is described by the specification; it is modelled
    here over its external collaborators, which are parameters. *)

(** Modelled from the spec: the VectorIndex, an external collaborator
    that is missing from the source.  A similarity query yields the
    stored passages with their scores, in insertion order, or nothing
    when the index cannot be reached. *)
Record VectorIndex : Type := {
  search : string -> option (list (SourceDocument.t * float))
}.

(** Modelled from the spec: the Generator, an external collaborator
    that is missing from the source.  It produces an answer from a
    question and its context passages, or fails (provider error,
    timeout) with a message. *)
Record Generator : Type := {
  generate : string -> list SourceDocument.t -> string + string
}.

(** Modelled from the spec: what the metrics inside the Evaluator,
    missing from the source, come to: two scores, or an internal
    failure with its message. *)
Inductive measurement : Type :=
| Measured (faithfulness answer_relevancy : float)
| Raised (message : string).

(** Modelled from the spec: the metrics of the Evaluator and its own
    timer, missing from the source. *)
Record Metrics : Type := {
  measure : string -> string -> list SourceDocument.t -> measurement;
  evaluation_ms : string -> string -> list SourceDocument.t -> float
}.

(** Modelled from the spec: the options of the pipeline, missing from
    the source: the number of passages to retrieve and the reading of
    the pipeline's timer for a query. *)
Record Options : Type := {
  top_k : nat;
  elapsed_ms : QueryRequest.t -> float
}.

(** Modelled from the spec: the failures of the Retriever, missing
    from the source.  An empty collection is not one of them: it
    yields the empty sequence. *)
Inductive retriever_error : Type :=
| IndexUnavailable.

(** Modelled from the spec: the failures of a query, missing from the
    source, each with its message. *)
Inductive query_error : Type :=
| RetrievalFailed (message : string)
| GenerationFailed (message : string).

(** Modelled from the spec: the two terminal states of a query, which
    the source does not define. *)
Inductive outcome (A : Type) : Type :=
| Done (a : A)
| Failed (e : query_error).

Arguments Done {A} a.
Arguments Failed {A} e.

Section QueryPipeline.

Variable index : VectorIndex.
Variable generator : Generator.
Variable metrics : Metrics.
Variable options : Options.

(** Modelled from the spec: the ranking of the Retriever, missing from
    the source.  A hit goes before the first hit of a strictly lower
    score, so that hits of equal score keep their insertion order. *)
Fixpoint insert_hit (h : SourceDocument.t * float)
  (l : list (SourceDocument.t * float)) : list (SourceDocument.t * float) :=
  match l with
  | [] => [h]
  | h' :: l' =>
      if (snd h' <? snd h)%float then h :: l else h' :: insert_hit h l'
  end.

(** Modelled from the spec: the Retriever, missing from the source,
    ranks by score, highest first. *)
Definition rank (hits : list (SourceDocument.t * float))
  : list (SourceDocument.t * float) :=
  fold_left (fun ranked h => insert_hit h ranked) hits [].

(** Modelled from the spec: [retrieve(question, k)] of the Retriever,
    missing from the source: the [k] best passages of one read of the
    index. *)
Definition retrieve (question : string) (k : nat)
  : retriever_error + list SourceDocument.t :=
  match search index question with
  | None => inl IndexUnavailable
  | Some hits => inr (map fst (firstn k (rank hits)))
  end.

(** Modelled from the spec: [score(question, answer, sources)] of the
    Evaluator, missing from the source.  An internal failure does not
    leave the Evaluator: it is recorded in [error], next to null
    scores. *)
Definition score (question answer : string) (sources : list SourceDocument.t)
  : EvaluationScores.t :=
  let time := evaluation_ms metrics question answer sources in
  match measure metrics question answer sources with
  | Measured faithfulness answer_relevancy =>
      EvaluationScores.mk (Some faithfulness) (Some answer_relevancy)
        (Some time) None
  | Raised message =>
      EvaluationScores.mk None None (Some time) (Some message)
  end.

(** Modelled from the spec: [answer(query)] of the QueryPipeline,
    missing from the source: retrieval, then generation, then the
    optional evaluation; the result is assembled only when retrieval
    and generation both succeeded. *)
Definition answer (query : QueryRequest.t) : outcome QueryResponse.t :=
  let question := QueryRequest.question query in
  match retrieve question (top_k options) with
  | inl IndexUnavailable =>
      Failed (RetrievalFailed "vector index unavailable")
  | inr passages =>
      match generate generator question passages with
      | inl message => Failed (GenerationFailed message)
      | inr text =>
          Done (QueryResponse.mk
                  question
                  text
                  (if QueryRequest.include_sources query
                   then Some passages else None)
                  (elapsed_ms options query)
                  (if QueryRequest.enable_evaluation query
                   then Some (score question text passages) else None))
      end
  end.

End QueryPipeline.

(** ** A parser of decimal numerals *)

(** A conversion of numeric strings for the examples: surrounding
    white space is dropped; a sign may come first; then [inf],
    [infinity] or [nan] in any case, or digits with an optional
    fraction and an optional exponent.  The numeral is rounded to the
    nearest float, ties to even. *)
Definition is_space (c : ascii) : bool :=
  let n := nat_of_ascii c in
  ((n =? 32) || ((9 <=? n) && (n <=? 13)))%nat.

Fixpoint drop_spaces (l : list ascii) : list ascii :=
  match l with
  | c :: l' => if is_space c then drop_spaces l' else l
  | [] => []
  end.

Definition trim (l : list ascii) : list ascii :=
  rev (drop_spaces (rev (drop_spaces l))).

Definition digit (c : ascii) : option Z :=
  let n := nat_of_ascii c in
  if ((48 <=? n) && (n <=? 57))%nat then Some (Z.of_nat (n - 48)) else None.

Fixpoint digits (l : list ascii) : list Z * list ascii :=
  match l with
  | c :: l' =>
      match digit c with
      | Some d => let (ds, rest) := digits l' in (d :: ds, rest)
      | None => ([], l)
      end
  | [] => ([], [])
  end.

Definition number (ds : list Z) : Z :=
  fold_left (fun n d => 10 * n + d)%Z ds 0%Z.

Definition sign (l : list ascii) : bool * list ascii :=
  match l with
  | "-"%char :: l' => (true, l')
  | "+"%char :: l' => (false, l')
  | _ => (false, l)
  end.

(** The float nearest to [n * 10 ^ e], negated when [negative]. *)
Definition scaled (negative : bool) (n e : Z) : float :=
  SF2Prim
    (if (n =? 0)%Z then S754_zero negative
     else if (0 <=? e)%Z then
       binary_normalize prec emax
         ((if negative then - n else n) * 10 ^ e) 0 false
     else
       SFdiv prec emax (S754_finite negative (Z.to_pos n) 0)
         (S754_finite false (Z.to_pos (10 ^ (- e))) 0)).

Definition exponent (l : list ascii) : option Z :=
  match l with
  | [] => Some 0%Z
  | c :: l' =>
      if Ascii.eqb (lower_ascii c) "e" then
        let (negative, l1) := sign l' in
        match digits l1 with
        | (d :: ds, []) =>
            Some (if negative then - number (d :: ds) else number (d :: ds))%Z
        | _ => None
        end
      else None
  end.

Definition parse_decimal (s : string) : option float :=
  let (negative, l) := sign (trim (list_ascii_of_string s)) in
  let word := string_of_list_ascii (map lower_ascii l) in
  if String.eqb word "inf" || String.eqb word "infinity" then
    Some (if negative then neg_infinity else infinity)
  else if String.eqb word "nan" then Some nan
  else
    let (whole, l1) := digits l in
    let (fraction, l2) :=
      match l1 with
      | "."%char :: l' => digits l'
      | _ => ([], l1)
      end in
    match (whole ++ fraction)%list with
    | [] => None
    | ds =>
        match exponent l2 with
        | Some e =>
            Some (scaled negative (number ds)
                    (e - Z.of_nat (List.length fraction)))
        | None => None
        end
    end.

Definition decimal : FloatParser :=
  {| parse_float := parse_decimal |}.

(** ** Scenarios *)

(** Collaborators for the scenarios of the specification: an index of
    four chunks, an index that cannot be reached, a generator that
    answers and one that times out, metrics that fail. *)
Definition chunk (content : string) : SourceDocument.t :=
  SourceDocument.mk content [("source", VStr "rag.pdf")].

Definition four_chunks : VectorIndex :=
  {| search := fun _ =>
       Some [(chunk "first", 0.5%float); (chunk "second", 0.75%float);
             (chunk "third", 0.5%float); (chunk "fourth", 0.25%float)] |}.

Definition unreachable : VectorIndex :=
  {| search := fun _ => None |}.

Definition answering : Generator :=
  {| generate := fun _ _ => inr "Retrieval-augmented generation." |}.

Definition timing_out : Generator :=
  {| generate := fun _ _ => inl "generation timed out" |}.

Definition failing : Metrics :=
  {| measure := fun _ _ _ => Raised "evaluator unavailable";
     evaluation_ms := fun _ _ _ => 3%float |}.

Definition top_4 : Options :=
  {| top_k := 4; elapsed_ms := fun _ => 120%float |}.

(** ** Shapes of results *)

(** The result of a validator of a single value: accepted, or rejected
    with one error, located at the value itself. *)
Definition single_error {A} (r : result A) : Prop :=
  match r with
  | Ok _ => True
  | ValidationError es => exists t, es = [mk_error [] t]
  end.

(** A rejection that names at least one error. *)
Definition informative {A} (r : result A) : Prop :=
  match r with
  | Ok _ => True
  | ValidationError es => es <> []
  end.

(** An error found under the key [k]. *)
Definition under (k : string) (e : error_details) : Prop :=
  exists l, loc e = Key k :: l.

(** * Properties *)

(** ** The result applicative *)

Lemma is_ok_fmap {A B} (f : A -> B) (r : result A) :
  is_ok (f <$> r) = is_ok r.
Proof. now destruct r. Qed.

Lemma is_ok_ap {A B} (rf : result (A -> B)) (ra : result A) :
  is_ok (rf <*> ra) = is_ok rf && is_ok ra.
Proof. now destruct rf, ra. Qed.

Lemma is_ok_at_loc {A} (i : loc_item) (r : result A) :
  is_ok (at_loc i r) = is_ok r.
Proof. now destruct r. Qed.

Lemma errors_of_fmap {A B} (f : A -> B) (r : result A) :
  errors_of (f <$> r) = errors_of r.
Proof. now destruct r. Qed.

Lemma errors_of_ap {A B} (rf : result (A -> B)) (ra : result A) :
  errors_of (rf <*> ra) = errors_of rf ++ errors_of ra.
Proof.
  destruct rf, ra; simpl; auto using app_nil_r.
Qed.

Lemma is_ok_true {A} (r : result A) :
  is_ok r = true <-> exists a, r = Ok a.
Proof.
  destruct r; simpl; split; intros H; eauto; try discriminate.
  now destruct H.
Qed.

Lemma is_ok_false {A} (r : result A) :
  is_ok r = false <-> r = ValidationError (errors_of r).
Proof. destruct r; simpl; split; intros H; congruence. Qed.

Lemma fmap_Ok {A B} (f : A -> B) (r : result A) (b : B) :
  f <$> r = Ok b -> exists a, r = Ok a /\ b = f a.
Proof. destruct r; simpl; intros H; inversion H; eauto. Qed.

Lemma ap_Ok {A B} (rf : result (A -> B)) (ra : result A) (b : B) :
  rf <*> ra = Ok b -> exists f a, rf = Ok f /\ ra = Ok a /\ b = f a.
Proof. destruct rf, ra; simpl; intros H; inversion H; eauto. Qed.

Lemma at_loc_Ok {A} (i : loc_item) (r : result A) (a : A) :
  at_loc i r = Ok a <-> r = Ok a.
Proof. destruct r; simpl; split; congruence. Qed.

(** ** Fields *)

Lemma read_given {A} (f : FieldInfo A) data v :
  lookup (name f) data = Some v ->
  read f data = at_loc (Key (name f)) (validator f v).
Proof. unfold read; now intros ->. Qed.

Lemma read_omitted {A} (f : FieldInfo A) data a :
  default f = Default a ->
  lookup (name f) data = None ->
  read f data = Ok a.
Proof. unfold read; now intros -> ->. Qed.

Lemma read_missing {A} (f : FieldInfo A) data :
  default f = Required ->
  lookup (name f) data = None ->
  read f data = ValidationError [mk_error [Key (name f)] missing].
Proof. unfold read; now intros -> ->. Qed.

(** A required field is never filled in: a successful validation read
    its value from the data. *)
Lemma read_Required_Ok {A} (f : FieldInfo A) data a :
  default f = Required ->
  read f data = Ok a ->
  exists v, lookup (name f) data = Some v /\ validator f v = Ok a.
Proof.
  unfold read; intros ->.
  destruct (lookup (name f) data) as [v|]; [|discriminate].
  intros H; apply at_loc_Ok in H; eauto.
Qed.

(** ** Strings *)

Lemma str_validator_Ok min_length max_length v s :
  str_validator min_length max_length v = Ok s <->
  v = VStr s
  /\ check_min_length min_length s = true
  /\ check_max_length max_length s = true.
Proof.
  unfold str_validator; split.
  - destruct v; try discriminate.
    destruct (check_min_length min_length s0) eqn:Hmin; [|discriminate].
    destruct (check_max_length max_length s0) eqn:Hmax; [|discriminate].
    simpl; intros H; inversion H; subst; auto.
  - intros (-> & -> & ->); reflexivity.
Qed.

Lemma str_validator_short n max_length s :
  (String.length s < n)%nat ->
  str_validator (Some n) max_length (VStr s) = fail string_too_short.
Proof.
  intros H; unfold str_validator, check_min_length.
  now apply Nat.leb_gt in H as ->.
Qed.

Lemma str_validator_long n m s :
  (n <= String.length s)%nat -> (m < String.length s)%nat ->
  str_validator (Some n) (Some m) (VStr s) = fail string_too_long.
Proof.
  intros Hn Hm; unfold str_validator, check_min_length, check_max_length.
  apply Nat.leb_le in Hn as ->.
  now apply Nat.leb_gt in Hm as ->.
Qed.

Lemma str_validator_unconstrained s :
  str_validator None None (VStr s) = Ok s.
Proof. reflexivity. Qed.

Lemma str_validator_in_range n m s :
  (n <= String.length s <= m)%nat ->
  str_validator (Some n) (Some m) (VStr s) = Ok s.
Proof.
  intros [Hn Hm]; apply str_validator_Ok.
  repeat split; now apply Nat.leb_le.
Qed.

(** ** Models *)

(** Split the verdict, or the errors, of a model into those of its
    fields. *)
Ltac by_fields :=
  unfold model;
  rewrite ?is_ok_ap, ?is_ok_fmap, ?errors_of_ap, ?errors_of_fmap,
    <- ?app_assoc;
  reflexivity.

(** From an accepted model to its accepted fields. *)
Ltac accepted_fields H :=
  unfold model in H;
  repeat (let f := fresh "f" in
          let a := fresh "a" in
          let Ha := fresh "Hfield" in
          apply ap_Ok in H as (f & a & H & Ha & ->));
  let a := fresh "a" in
  let Ha := fresh "Hfield" in
  apply fmap_Ok in H as (a & Ha & ->).

(** ** QueryRequest *)

Section QueryRequestProperties.

Import QueryRequest.

(** The example request of the schema. *)
Example what_is_rag :
  validate
    (VDict [("question", VStr "What is RAG?");
            ("include_sources", VBool true);
            ("enable_evaluation", VBool false)])
  = Ok (mk "What is RAG?" true false).
Proof. reflexivity. Qed.

Lemma QueryRequest_is_ok data :
  is_ok (validate (VDict data))
  = is_ok (read question_field data)
    && is_ok (read include_sources_field data)
    && is_ok (read enable_evaluation_field data).
Proof. unfold validate; by_fields. Qed.

Lemma QueryRequest_errors data :
  errors_of (validate (VDict data))
  = errors_of (read question_field data)
    ++ errors_of (read include_sources_field data)
    ++ errors_of (read enable_evaluation_field data).
Proof. unfold validate; by_fields. Qed.

Lemma QueryRequest_Ok data q :
  validate (VDict data) = Ok q ->
  read question_field data = Ok (question q)
  /\ read include_sources_field data = Ok (include_sources q)
  /\ read enable_evaluation_field data = Ok (enable_evaluation q).
Proof.
  unfold validate; intros H.
  accepted_fields H; auto.
Qed.

(** The question of an accepted request is a string of the data, of 1
    to 1000 characters. *)
Lemma QueryRequest_accepted_question data q :
  validate (VDict data) = Ok q ->
  lookup "question" data = Some (VStr (question q))
  /\ 1 <= String.length (question q) <= 1000.
Proof.
  intros H; apply QueryRequest_Ok in H as (H & _).
  apply read_Required_Ok in H as (v & Hv & H); [|reflexivity].
  apply str_validator_Ok in H as (-> & Hmin & Hmax).
  apply Nat.leb_le in Hmin, Hmax; auto.
Qed.

(** C1.  A request whose question is the string [s] is accepted only if
    [s] has between 1 and 1000 characters, and is accepted whenever it
    has and the two flags are valid; the empty string is reported as
    [string_too_short] and a string of more than 1000 characters as
    [string_too_long], both at the field [question].  The verdict is a
    function of the request data alone. *)
Theorem QueryRequest_question_length (data : pydict) (s : string) :
  lookup "question" data = Some (VStr s) ->
  (is_ok (validate (VDict data)) = true -> 1 <= String.length s <= 1000)
  /\ (1 <= String.length s <= 1000 ->
      is_ok (read include_sources_field data) = true ->
      is_ok (read enable_evaluation_field data) = true ->
      exists q, validate (VDict data) = Ok q /\ question q = s)
  /\ (String.length s = 0 ->
      is_ok (validate (VDict data)) = false
      /\ In (mk_error [Key "question"] string_too_short)
            (errors_of (validate (VDict data))))
  /\ (1000 < String.length s ->
      is_ok (validate (VDict data)) = false
      /\ In (mk_error [Key "question"] string_too_long)
            (errors_of (validate (VDict data)))).
Proof.
  intros Hq.
  assert (Hfield : read question_field data
                   = at_loc (Key "question")
                       (str_validator (Some 1) (Some 1000) (VStr s)))
    by (exact (read_given question_field data (VStr s) Hq)).
  split; [|split; [|split; intros Hlen; split]].
  - intros H.
    rewrite QueryRequest_is_ok, Hfield, is_ok_at_loc in H.
    apply andb_prop in H as [H _]; apply andb_prop in H as [H _].
    apply is_ok_true in H as [s' H].
    apply str_validator_Ok in H as (Heq & Hmin & Hmax).
    injection Heq as <-.
    apply Nat.leb_le in Hmin, Hmax; auto.
  - intros [Hmin Hmax] Hi He.
    assert (Hs : read question_field data = Ok s).
    { rewrite Hfield; apply at_loc_Ok, str_validator_Ok.
      repeat split; now apply Nat.leb_le. }
    assert (Hok : is_ok (validate (VDict data)) = true)
      by (now rewrite QueryRequest_is_ok, Hs, Hi, He).
    apply is_ok_true in Hok as [q Hok].
    exists q; split; [assumption|].
    apply QueryRequest_Ok in Hok as (Hok & _); congruence.
  - rewrite QueryRequest_is_ok, Hfield, str_validator_short by lia.
    reflexivity.
  - rewrite QueryRequest_errors, Hfield, str_validator_short by lia.
    simpl; auto.
  - rewrite QueryRequest_is_ok, Hfield, str_validator_long by lia.
    reflexivity.
  - rewrite QueryRequest_errors, Hfield, str_validator_long by lia.
    simpl; auto.
Qed.

Lemma QueryRequest_question_length_witness :
  lookup "question" [("question", VStr "What is RAG?")]
  = Some (VStr "What is RAG?")
  /\ exists q,
       validate (VDict [("question", VStr "What is RAG?")]) = Ok q
       /\ question q = "What is RAG?".
Proof.
  split; [reflexivity|].
  apply (QueryRequest_question_length
           [("question", VStr "What is RAG?")] "What is RAG?");
    [reflexivity | simpl; lia | reflexivity | reflexivity].
Defined.

(** C9.  A request that gives a valid question and neither flag is
    accepted with [include_sources = true] and
    [enable_evaluation = false]. *)
Theorem QueryRequest_defaults (data : pydict) (s : string) :
  lookup "question" data = Some (VStr s) ->
  lookup "include_sources" data = None ->
  lookup "enable_evaluation" data = None ->
  1 <= String.length s <= 1000 ->
  validate (VDict data) = Ok (mk s true false).
Proof.
  intros Hq Hi He Hlen.
  unfold validate, model.
  rewrite (read_given question_field data (VStr s) Hq).
  rewrite (read_omitted include_sources_field data true eq_refl Hi).
  rewrite (read_omitted enable_evaluation_field data false eq_refl He).
  change (validator question_field)
    with (str_validator (Some 1) (Some 1000)).
  now rewrite str_validator_in_range.
Qed.

Lemma QueryRequest_defaults_witness :
  validate (VDict [("question", VStr "What is RAG?")])
  = Ok (mk "What is RAG?" true false).
Proof.
  apply (QueryRequest_defaults
           [("question", VStr "What is RAG?")] "What is RAG?");
    [reflexivity | reflexivity | reflexivity | simpl; lia].
Defined.

End QueryRequestProperties.

(** ** ReadinessResponse *)

Section ReadinessResponseProperties.

Import ReadinessResponse.

Lemma ReadinessResponse_is_ok data :
  is_ok (validate (VDict data))
  = is_ok (read status_field data)
    && is_ok (read qdrant_connected_field data)
    && is_ok (read collection_info_field data).
Proof. unfold validate; by_fields. Qed.

Lemma ReadinessResponse_errors data :
  errors_of (validate (VDict data))
  = errors_of (read status_field data)
    ++ errors_of (read qdrant_connected_field data)
    ++ errors_of (read collection_info_field data).
Proof. unfold validate; by_fields. Qed.

Lemma dict_validator_Ok v d :
  dict_validator v = Ok d -> v = VDict d.
Proof. destruct v; simpl; intros H; inversion H; reflexivity. Qed.

(** C7.  An accepted readiness response took its status from a string
    of the data, its connectivity flag from a value of the data that
    reads as a boolean and its collection information from a dict of
    the data; a response that lacks one of the three is rejected, with
    the error [missing] at that field. *)
Theorem ReadinessResponse_fields_required (data : pydict) :
  (forall r, validate (VDict data) = Ok r ->
     lookup "status" data = Some (VStr (status r))
     /\ (exists v, lookup "qdrant_connected" data = Some v
                  /\ bool_validator v = Ok (qdrant_connected r))
     /\ lookup "collection_info" data = Some (VDict (collection_info r)))
  /\ (forall k, In k ["status"; "qdrant_connected"; "collection_info"] ->
       lookup k data = None ->
       is_ok (validate (VDict data)) = false
       /\ In (mk_error [Key k] missing) (errors_of (validate (VDict data)))).
Proof.
  split.
  - intros r H; unfold validate in H; accepted_fields H.
    apply read_Required_Ok in Hfield as (vc & Hc & Hvc); [|reflexivity].
    apply read_Required_Ok in Hfield0 as (vq & Hq & Hvq); [|reflexivity].
    apply read_Required_Ok in Hfield1 as (vs & Hs & Hvs); [|reflexivity].
    apply dict_validator_Ok in Hvc as ->.
    apply str_validator_Ok in Hvs as (-> & _).
    simpl; eauto.
  - intros k Hk Hnone.
    rewrite ReadinessResponse_is_ok, ReadinessResponse_errors.
    simpl in Hk; destruct Hk as [<- | [<- | [<- | []]]].
    + rewrite (read_missing status_field data eq_refl Hnone); simpl; auto.
    + rewrite (read_missing qdrant_connected_field data eq_refl Hnone).
      simpl; split; [now rewrite andb_false_r|].
      apply in_or_app; right; simpl; auto.
    + rewrite (read_missing collection_info_field data eq_refl Hnone).
      simpl; split; [apply andb_false_r|].
      apply in_or_app; right; apply in_or_app; right; simpl; auto.
Qed.

Lemma ReadinessResponse_fields_required_witness :
  is_ok (validate (VDict [("status", VStr "degraded");
                          ("collection_info", VDict [])])) = false
  /\ In (mk_error [Key "qdrant_connected"] missing)
        (errors_of (validate (VDict [("status", VStr "degraded");
                                     ("collection_info", VDict [])]))).
Proof.
  apply (ReadinessResponse_fields_required
           [("status", VStr "degraded"); ("collection_info", VDict [])]);
    [simpl; auto | reflexivity].
Defined.

End ReadinessResponseProperties.

(** ** Floats *)

Section FloatProperties.

Context {parser : FloatParser}.

Lemma check_bounds_Ok ge le f f' :
  check_bounds ge le f = Ok f' <->
  f' = f /\ check_le le f = true /\ check_ge ge f = true.
Proof.
  unfold check_bounds.
  destruct (check_le le f), (check_ge ge f); simpl;
    split; try discriminate; try (intros (_ & ? & ?); discriminate).
  - intros H; inversion H; auto.
  - now intros (-> & _).
Qed.

Lemma check_bounds_unbounded f :
  check_bounds None None f = Ok f.
Proof. reflexivity. Qed.

Lemma float_validator_to_float ge le v f :
  float_validator ge le v = Ok f <->
  to_float v = Ok f /\ check_le le f = true /\ check_ge ge f = true.
Proof.
  unfold float_validator; destruct (to_float v) as [x|es]; split.
  - intros H; apply check_bounds_Ok in H as (-> & ?); auto.
  - intros (H & Hb); injection H as ->; now apply check_bounds_Ok.
  - discriminate.
  - intros (H & _); discriminate.
Qed.

Lemma float_validator_Ok ge le v f :
  float_validator ge le v = Ok f ->
  check_le le f = true /\ check_ge ge f = true.
Proof. intros H; now apply float_validator_to_float in H as (_ & H). Qed.

Lemma float_validator_unbounded v :
  float_validator None None v = to_float v.
Proof. unfold float_validator; now destruct (to_float v). Qed.

Lemma to_float_not_None v f : to_float v = Ok f -> v <> VNone.
Proof. intros H ->; discriminate. Qed.

Lemma float_validator_unit_interval v f :
  float_validator (Some 0%float) (Some 1%float) v = Ok f ->
  in_unit_interval f = true.
Proof.
  intros H; apply float_validator_Ok in H as [Hle Hge].
  unfold in_unit_interval; simpl in Hle, Hge.
  now rewrite Hle, Hge.
Qed.

(** A value read as a float of the unit interval is accepted as that
    float. *)
Lemma float_validator_converts_inside v f :
  to_float v = Ok f ->
  in_unit_interval f = true ->
  float_validator (Some 0%float) (Some 1%float) v = Ok f.
Proof.
  unfold in_unit_interval; intros Hv H; apply andb_prop in H as [Hge Hle].
  now apply float_validator_to_float.
Qed.

(** A value read as a float outside the unit interval is rejected. *)
Lemma float_validator_converts_outside v f :
  to_float v = Ok f ->
  in_unit_interval f = false ->
  exists t,
    float_validator (Some 0%float) (Some 1%float) v = fail t
    /\ (t = less_than_equal \/ t = greater_than_equal).
Proof.
  unfold in_unit_interval, float_validator; intros -> H.
  unfold check_bounds; simpl.
  destruct (f <=? 1)%float; simpl; [|eauto].
  rewrite andb_true_r in H; rewrite H; simpl; eauto.
Qed.

Lemma float_validator_inside f :
  in_unit_interval f = true ->
  float_validator (Some 0%float) (Some 1%float) (VFloat f) = Ok f.
Proof. now apply float_validator_converts_inside. Qed.

Lemma float_validator_outside f :
  in_unit_interval f = false ->
  exists t,
    float_validator (Some 0%float) (Some 1%float) (VFloat f) = fail t
    /\ (t = less_than_equal \/ t = greater_than_equal).
Proof. now apply float_validator_converts_outside. Qed.

Lemma nullable_Some {A} (validator : value -> result A) v a :
  nullable validator v = Ok (Some a) -> validator v = Ok a.
Proof.
  destruct v; simpl; try discriminate;
    intros H; apply fmap_Ok in H as (a' & H & Heq); congruence.
Qed.

Lemma nullable_Ok {A} (validator : value -> result A) v a :
  validator v = Ok a -> v <> VNone -> nullable validator v = Ok (Some a).
Proof.
  destruct v; simpl; intros Hv Hne; try congruence; now rewrite Hv.
Qed.

(** What an optional field holds after validation was given in the
    data and passed the validator of the field. *)
Lemma read_optional_Some {A} (f : FieldInfo (option A)) inner data a :
  default f = Default None ->
  validator f = nullable inner ->
  read f data = Ok (Some a) ->
  exists v, lookup (name f) data = Some v /\ inner v = Ok a.
Proof.
  unfold read; intros -> ->.
  destruct (lookup (name f) data) as [v|]; [|discriminate].
  intros H; apply at_loc_Ok, nullable_Some in H; eauto.
Qed.

End FloatProperties.

(** ** EvaluationScores *)

Section EvaluationScoresProperties.

Import EvaluationScores.

Context {parser : FloatParser}.

Lemma EvaluationScores_is_ok data :
  is_ok (validate (VDict data))
  = is_ok (read faithfulness_field data)
    && is_ok (read answer_relevancy_field data)
    && is_ok (read evaluation_time_ms_field data)
    && is_ok (read error_field data).
Proof. unfold validate; by_fields. Qed.

Lemma EvaluationScores_errors data :
  errors_of (validate (VDict data))
  = errors_of (read faithfulness_field data)
    ++ errors_of (read answer_relevancy_field data)
    ++ errors_of (read evaluation_time_ms_field data)
    ++ errors_of (read error_field data).
Proof. unfold validate; by_fields. Qed.

Lemma EvaluationScores_Ok data e :
  validate (VDict data) = Ok e <->
  read faithfulness_field data = Ok (faithfulness e)
  /\ read answer_relevancy_field data = Ok (answer_relevancy e)
  /\ read evaluation_time_ms_field data = Ok (evaluation_time_ms e)
  /\ read error_field data = Ok (error e).
Proof.
  split.
  - unfold validate; intros H; accepted_fields H; auto.
  - intros (Hf & Ha & Ht & He); unfold validate, model.
    rewrite Hf, Ha, Ht, He; now destruct e.
Qed.

Lemma score_field_Some (f : FieldInfo (option float)) data x :
  default f = Default None ->
  validator f = nullable (float_validator (Some 0%float) (Some 1%float)) ->
  read f data = Ok (Some x) ->
  in_unit_interval x = true.
Proof.
  intros Hd Hv H.
  apply (read_optional_Some f _ data x Hd Hv) in H as (v & _ & H).
  now apply float_validator_unit_interval in H.
Qed.

Lemma score_field_converts_inside (f : FieldInfo (option float)) data v x :
  validator f = nullable (float_validator (Some 0%float) (Some 1%float)) ->
  lookup (name f) data = Some v ->
  to_float v = Ok x ->
  in_unit_interval x = true ->
  read f data = Ok (Some x).
Proof.
  intros Hv Hl Hx Hin.
  rewrite (read_given f data _ Hl), Hv.
  rewrite (nullable_Ok _ v x (float_validator_converts_inside v x Hx Hin)
             (to_float_not_None v x Hx)).
  reflexivity.
Qed.

Lemma score_field_converts_outside (f : FieldInfo (option float)) data v x :
  validator f = nullable (float_validator (Some 0%float) (Some 1%float)) ->
  lookup (name f) data = Some v ->
  to_float v = Ok x ->
  in_unit_interval x = false ->
  exists t, read f data = ValidationError [mk_error [Key (name f)] t].
Proof.
  intros Hv Hl Hx Hout.
  rewrite (read_given f data _ Hl), Hv.
  destruct (float_validator_converts_outside v x Hx Hout) as (t & Ht & _).
  exists t; pose proof (to_float_not_None v x Hx) as Hnone.
  destruct v; try congruence; unfold nullable; now rewrite Ht.
Qed.

Lemma score_field_inside (f : FieldInfo (option float)) data x :
  validator f = nullable (float_validator (Some 0%float) (Some 1%float)) ->
  lookup (name f) data = Some (VFloat x) ->
  in_unit_interval x = true ->
  read f data = Ok (Some x).
Proof.
  intros Hv Hx Hin.
  now apply (score_field_converts_inside f data (VFloat x) x).
Qed.

Lemma score_field_outside (f : FieldInfo (option float)) data x :
  validator f = nullable (float_validator (Some 0%float) (Some 1%float)) ->
  lookup (name f) data = Some (VFloat x) ->
  in_unit_interval x = false ->
  exists t, read f data = ValidationError [mk_error [Key (name f)] t].
Proof.
  intros Hv Hx Hout.
  now apply (score_field_converts_outside f data (VFloat x) x).
Qed.

(** C2.  In an accepted instance a faithfulness or answer relevancy
    score that is present lies in the closed interval from 0.0 to 1.0.
    Whatever value is given for either score (a float, an integer, a
    boolean, a numeric string), if it reads as a float outside the
    interval the instance is rejected with an error at that field, and
    if it reads as a float inside it that float is accepted for the
    score and kept, whenever the other fields are valid. *)
Theorem EvaluationScores_scores_in_unit_interval (data : pydict) :
  (forall e, validate (VDict data) = Ok e ->
     (forall x, faithfulness e = Some x -> in_unit_interval x = true)
     /\ (forall x, answer_relevancy e = Some x -> in_unit_interval x = true))
  /\ (forall k v x, In k ["faithfulness"; "answer_relevancy"] ->
       lookup k data = Some v ->
       to_float v = Ok x ->
       in_unit_interval x = false ->
       is_ok (validate (VDict data)) = false
       /\ exists t, In (mk_error [Key k] t) (errors_of (validate (VDict data))))
  /\ (forall v x, lookup "faithfulness" data = Some v ->
       to_float v = Ok x ->
       in_unit_interval x = true ->
       is_ok (read answer_relevancy_field data) = true ->
       is_ok (read evaluation_time_ms_field data) = true ->
       is_ok (read error_field data) = true ->
       exists e, validate (VDict data) = Ok e /\ faithfulness e = Some x)
  /\ (forall v x, lookup "answer_relevancy" data = Some v ->
       to_float v = Ok x ->
       in_unit_interval x = true ->
       is_ok (read faithfulness_field data) = true ->
       is_ok (read evaluation_time_ms_field data) = true ->
       is_ok (read error_field data) = true ->
       exists e, validate (VDict data) = Ok e /\ answer_relevancy e = Some x).
Proof.
  split; [|split; [|split]].
  - intros e H; apply EvaluationScores_Ok in H as (Hf & Ha & _).
    split; intros x Hx; rewrite Hx in *.
    + now apply (score_field_Some faithfulness_field data).
    + now apply (score_field_Some answer_relevancy_field data).
  - intros k v x Hk Hv Hx Hout.
    rewrite EvaluationScores_is_ok, EvaluationScores_errors.
    simpl in Hk; destruct Hk as [<- | [<- | []]].
    + destruct (score_field_converts_outside faithfulness_field data v x
                  eq_refl Hv Hx Hout) as (t & ->).
      split; [reflexivity|]; exists t; simpl; auto.
    + destruct (score_field_converts_outside answer_relevancy_field data v x
                  eq_refl Hv Hx Hout) as (t & ->).
      split; [simpl; now rewrite andb_false_r|].
      exists t; apply in_or_app; right; simpl; auto.
  - intros v x Hv Hx Hin Ha Ht He.
    pose proof (score_field_converts_inside faithfulness_field data v x
                  eq_refl Hv Hx Hin) as Hf.
    assert (Hok : is_ok (validate (VDict data)) = true)
      by (now rewrite EvaluationScores_is_ok, Hf, Ha, Ht, He).
    apply is_ok_true in Hok as [e Hok]; exists e; split; [assumption|].
    apply EvaluationScores_Ok in Hok as (Hf' & _); congruence.
  - intros v x Hv Hx Hin Hf Ht He.
    pose proof (score_field_converts_inside answer_relevancy_field data v x
                  eq_refl Hv Hx Hin) as Ha.
    assert (Hok : is_ok (validate (VDict data)) = true)
      by (now rewrite EvaluationScores_is_ok, Hf, Ha, Ht, He).
    apply is_ok_true in Hok as [e Hok]; exists e; split; [assumption|].
    apply EvaluationScores_Ok in Hok as (_ & Ha' & _); congruence.
Qed.

(** C10.  Scores and an error message go together: an instance given
    two scores inside the unit interval, an evaluation time and an
    error message is accepted with all four fields populated. *)
Theorem EvaluationScores_no_cross_field_constraint
  (data : pydict) (f a t : float) (message : string) :
  lookup "faithfulness" data = Some (VFloat f) ->
  lookup "answer_relevancy" data = Some (VFloat a) ->
  lookup "evaluation_time_ms" data = Some (VFloat t) ->
  lookup "error" data = Some (VStr message) ->
  in_unit_interval f = true ->
  in_unit_interval a = true ->
  validate (VDict data) = Ok (mk (Some f) (Some a) (Some t) (Some message)).
Proof.
  intros Hf Ha Ht He Hfin Hain.
  apply EvaluationScores_Ok; simpl; repeat split.
  - now apply score_field_inside.
  - now apply score_field_inside.
  - now rewrite (read_given evaluation_time_ms_field data _ Ht).
  - now rewrite (read_given error_field data _ He).
Qed.

End EvaluationScoresProperties.

Section EvaluationScoresExamples.

Import EvaluationScores.

#[local] Existing Instance decimal.

Lemma EvaluationScores_scores_in_unit_interval_witness :
  (exists e,
     validate (VDict [("faithfulness", VStr "0.75")]) = Ok e
     /\ faithfulness e = Some 0.75%float)
  /\ is_ok (validate (VDict [("answer_relevancy", VInt 2)])) = false.
Proof.
  split.
  - destruct (EvaluationScores_scores_in_unit_interval
                [("faithfulness", VStr "0.75")]) as (_ & _ & Hin & _).
    apply (Hin (VStr "0.75") 0.75%float); reflexivity.
  - destruct (EvaluationScores_scores_in_unit_interval
                [("answer_relevancy", VInt 2)]) as (_ & Hout & _).
    apply (Hout "answer_relevancy" (VInt 2) 2%float);
      [simpl; auto | reflexivity | reflexivity | reflexivity].
Defined.

(** Numeric strings and integers are read as floats before the bounds
    are checked. *)
Example EvaluationScores_numeric_strings :
  validate (VDict [("faithfulness", VStr "0.5");
                   ("answer_relevancy", VInt 1);
                   ("evaluation_time_ms", VStr "12.5")])
  = Ok (mk (Some 0.5%float) (Some 1%float) (Some 12.5%float) None)
  /\ validate (VDict [("faithfulness", VStr "1.5")])
     = ValidationError [mk_error [Key "faithfulness"] less_than_equal]
  /\ validate (VDict [("faithfulness", VStr "half")])
     = ValidationError [mk_error [Key "faithfulness"] float_parsing]
  /\ validate (VDict [("evaluation_time_ms", VStr "inf")])
     = Ok (mk None None (Some infinity) None).
Proof. repeat split; reflexivity. Qed.

Example EvaluationScores_bounds_inclusive :
  is_ok (validate (VDict [("faithfulness", VFloat 0);
                          ("answer_relevancy", VFloat 1)])) = true.
Proof. reflexivity. Qed.

Example EvaluationScores_nan_rejected :
  validate (VDict [("faithfulness", VFloat nan)])
  = ValidationError [mk_error [Key "faithfulness"] less_than_equal].
Proof. reflexivity. Qed.

Example EvaluationScores_sentinel_rejected :
  validate (VDict [("faithfulness", VFloat (-1))])
  = ValidationError [mk_error [Key "faithfulness"] greater_than_equal].
Proof. reflexivity. Qed.

Lemma EvaluationScores_no_cross_field_constraint_witness :
  validate (VDict [("faithfulness", VFloat 0.875);
                   ("answer_relevancy", VFloat 0.5);
                   ("evaluation_time_ms", VFloat 12.5);
                   ("error", VStr "timeout")])
  = Ok (mk (Some 0.875%float) (Some 0.5%float) (Some 12.5%float)
          (Some "timeout")).
Proof.
  apply EvaluationScores_no_cross_field_constraint; reflexivity.
Defined.

End EvaluationScoresExamples.

Section OptionalNumericFields.

Context {parser : FloatParser}.

(** C8.  The three numeric fields of [EvaluationScores] are of type
    [float | None] and default to [None]: left out, each reads as
    [None], and a float given for one never reads as [None].  The one
    numeric field of [QueryResponse] is required, so it has no
    representation of absence at all. *)
Theorem optional_numeric_fields_default_to_None (data : pydict) :
  Forall (fun f : FieldInfo (option float) =>
            default f = Default None
            /\ (lookup (name f) data = None -> read f data = Ok None)
            /\ (lookup (name f) data = Some VNone -> read f data = Ok None)
            /\ (forall x, lookup (name f) data = Some (VFloat x) ->
                 read f data <> Ok None))
    [EvaluationScores.faithfulness_field;
     EvaluationScores.answer_relevancy_field;
     EvaluationScores.evaluation_time_ms_field]
  /\ default (QueryResponse.processing_time_ms_field : FieldInfo float)
     = Required
  /\ (forall e, EvaluationScores.validate (VDict data) = Ok e ->
       (lookup "faithfulness" data = None ->
        EvaluationScores.faithfulness e = None)
       /\ (lookup "answer_relevancy" data = None ->
           EvaluationScores.answer_relevancy e = None)
       /\ (lookup "evaluation_time_ms" data = None ->
           EvaluationScores.evaluation_time_ms e = None)
       /\ (forall x, lookup "evaluation_time_ms" data = Some (VFloat x) ->
           EvaluationScores.evaluation_time_ms e = Some x)).
Proof.
  assert (Hfield : forall (f : FieldInfo (option float)) inner,
             default f = Default None ->
             validator f = nullable inner ->
             default f = Default None
             /\ (lookup (name f) data = None -> read f data = Ok None)
             /\ (lookup (name f) data = Some VNone -> read f data = Ok None)
             /\ (forall x, lookup (name f) data = Some (VFloat x) ->
                  read f data <> Ok None)).
  { intros f inner Hd Hv; repeat split; [assumption| | |].
    - now apply read_omitted.
    - intros H; now rewrite (read_given f data _ H), Hv.
    - intros x H; rewrite (read_given f data _ H), Hv; simpl.
      now destruct (inner (VFloat x)). }
  split; [|split; [reflexivity|]].
  - repeat constructor; eapply Hfield; reflexivity.
  - intros e H; apply EvaluationScores_Ok in H as (Hf & Ha & Ht & _).
    repeat split.
    + intros H.
      rewrite (read_omitted EvaluationScores.faithfulness_field
                 data None eq_refl H) in Hf; congruence.
    + intros H.
      rewrite (read_omitted EvaluationScores.answer_relevancy_field
                 data None eq_refl H) in Ha; congruence.
    + intros H.
      rewrite (read_omitted EvaluationScores.evaluation_time_ms_field
                 data None eq_refl H) in Ht; congruence.
    + intros x H.
      rewrite (read_given EvaluationScores.evaluation_time_ms_field
                 data _ H) in Ht.
      simpl in Ht; congruence.
Qed.

End OptionalNumericFields.

Section OptionalNumericFieldsExamples.

#[local] Existing Instance decimal.

Lemma optional_numeric_fields_default_to_None_witness :
  EvaluationScores.evaluation_time_ms
    (EvaluationScores.mk None None (Some (-1)%float) None)
  = Some (-1)%float.
Proof.
  destruct (optional_numeric_fields_default_to_None
              [("evaluation_time_ms", VFloat (-1))]) as (_ & _ & H).
  apply (H (EvaluationScores.mk None None (Some (-1)%float) None));
    reflexivity.
Defined.

Example EvaluationScores_all_absent :
  EvaluationScores.validate (VDict [])
  = Ok (EvaluationScores.mk None None None None).
Proof. reflexivity. Qed.

End OptionalNumericFieldsExamples.

(** ** QueryResponse *)

Section QueryResponseProperties.

Import QueryResponse.

Context {parser : FloatParser}.

Lemma QueryResponse_is_ok data :
  is_ok (validate (VDict data))
  = is_ok (read question_field data)
    && is_ok (read answer_field data)
    && is_ok (read sources_field data)
    && is_ok (read processing_time_ms_field data)
    && is_ok (read evaluation_field data).
Proof. unfold validate; by_fields. Qed.

Lemma QueryResponse_errors data :
  errors_of (validate (VDict data))
  = errors_of (read question_field data)
    ++ errors_of (read answer_field data)
    ++ errors_of (read sources_field data)
    ++ errors_of (read processing_time_ms_field data)
    ++ errors_of (read evaluation_field data).
Proof. unfold validate; by_fields. Qed.

Lemma QueryResponse_Ok data r :
  validate (VDict data) = Ok r <->
  read question_field data = Ok (question r)
  /\ read answer_field data = Ok (answer r)
  /\ read sources_field data = Ok (sources r)
  /\ read processing_time_ms_field data = Ok (processing_time_ms r)
  /\ read evaluation_field data = Ok (evaluation r).
Proof.
  split.
  - unfold validate; intros H; accepted_fields H; auto 6.
  - intros (Hq & Ha & Hs & Ht & He); unfold validate, model.
    rewrite Hq, Ha, Hs, Ht, He; now destruct r.
Qed.

(** The answer of an accepted response is a string of the data; a
    response without an answer, or with [None] for it, is rejected. *)
Lemma QueryResponse_answer_required data :
  (forall r, validate (VDict data) = Ok r ->
     lookup "answer" data = Some (VStr (answer r)))
  /\ (lookup "answer" data = None ->
      is_ok (validate (VDict data)) = false
      /\ In (mk_error [Key "answer"] missing)
            (errors_of (validate (VDict data))))
  /\ (lookup "answer" data = Some VNone ->
      is_ok (validate (VDict data)) = false
      /\ In (mk_error [Key "answer"] string_type)
            (errors_of (validate (VDict data)))).
Proof.
  split; [|split].
  - intros r H; apply QueryResponse_Ok in H as (_ & H & _).
    apply read_Required_Ok in H as (v & Hv & H); [|reflexivity].
    now apply str_validator_Ok in H as (-> & _).
  - intros H; rewrite QueryResponse_is_ok, QueryResponse_errors.
    rewrite (read_missing answer_field data eq_refl H); simpl.
    split; [now rewrite andb_false_r|].
    apply in_or_app; right; simpl; auto.
  - intros H; rewrite QueryResponse_is_ok, QueryResponse_errors.
    rewrite (read_given answer_field data _ H); simpl.
    split; [now rewrite andb_false_r|].
    apply in_or_app; right; simpl; auto.
Qed.

(** The optional fields of a response that the data leaves out, or
    gives as [None], are [None]. *)
Lemma QueryResponse_optional_absent data r :
  validate (VDict data) = Ok r ->
  (lookup "sources" data = None \/ lookup "sources" data = Some VNone ->
   sources r = None)
  /\ (lookup "evaluation" data = None
      \/ lookup "evaluation" data = Some VNone ->
      evaluation r = None).
Proof.
  intros H; apply QueryResponse_Ok in H as (_ & _ & Hs & _ & He).
  split; intros [H | H].
  - rewrite (read_omitted sources_field data None eq_refl H) in Hs.
    congruence.
  - rewrite (read_given sources_field data _ H) in Hs.
    simpl in Hs; congruence.
  - rewrite (read_omitted evaluation_field data None eq_refl H) in He.
    congruence.
  - rewrite (read_given evaluation_field data _ H) in He.
    simpl in He; congruence.
Qed.

(** C3, amended.  The processing time of an accepted response is the
    float that the value given for it in the data reads as: the field
    is required, and a response without it is rejected.  No bound is
    put on it: whatever the value given (a float, an integer, a
    boolean, a numeric string) reads as, of whatever sign, is accepted
    and kept when the other fields are valid. *)
Theorem QueryResponse_processing_time_unbounded (data : pydict) :
  (forall r, validate (VDict data) = Ok r ->
     exists v, lookup "processing_time_ms" data = Some v
               /\ float_validator None None v = Ok (processing_time_ms r)
               /\ to_float v = Ok (processing_time_ms r))
  /\ (lookup "processing_time_ms" data = None ->
      is_ok (validate (VDict data)) = false)
  /\ (forall v t, lookup "processing_time_ms" data = Some v ->
       to_float v = Ok t ->
       is_ok (read question_field data) = true ->
       is_ok (read answer_field data) = true ->
       is_ok (read sources_field data) = true ->
       is_ok (read evaluation_field data) = true ->
       exists r, validate (VDict data) = Ok r /\ processing_time_ms r = t).
Proof.
  split; [|split].
  - intros r H; apply QueryResponse_Ok in H as (_ & _ & _ & H & _).
    apply read_Required_Ok in H as (v & Hv & H); [|reflexivity].
    exists v; repeat split; auto.
    now rewrite <- float_validator_unbounded.
  - intros H; rewrite QueryResponse_is_ok.
    rewrite (read_missing processing_time_ms_field data eq_refl H); simpl.
    now rewrite andb_false_r.
  - intros v t Hv Ht Hq Ha Hs He.
    assert (Hfield : read processing_time_ms_field data = Ok t).
    { rewrite (read_given processing_time_ms_field data _ Hv).
      change (validator processing_time_ms_field)
        with (float_validator None None).
      now rewrite float_validator_unbounded, Ht. }
    assert (Hok : is_ok (validate (VDict data)) = true)
      by (now rewrite QueryResponse_is_ok, Hq, Ha, Hs, Hfield, He).
    apply is_ok_true in Hok as [r Hok]; exists r; split; [assumption|].
    apply QueryResponse_Ok in Hok as (_ & _ & _ & Hok & _); congruence.
Qed.

End QueryResponseProperties.

Section QueryResponseExamples.

Import QueryResponse.

#[local] Existing Instance decimal.

(** C3, refuted: a response with a processing time of -1.0
    milliseconds is accepted. *)
Lemma QueryResponse_negative_time_accepted :
  validate (VDict [("question", VStr "What is RAG?");
                   ("answer", VStr "Retrieval-augmented generation.");
                   ("processing_time_ms", VFloat (-1))])
  = Ok (mk "What is RAG?" "Retrieval-augmented generation." None
          (-1)%float None)
  /\ (0 <=? -1)%float = false.
Proof. split; reflexivity. Qed.

Lemma QueryResponse_processing_time_unbounded_witness :
  exists r,
    validate (VDict [("question", VStr "What is RAG?");
                     ("answer", VStr "Retrieval-augmented generation.");
                     ("processing_time_ms", VFloat (-1))]) = Ok r
    /\ processing_time_ms r = (-1)%float.
Proof.
  destruct (QueryResponse_processing_time_unbounded
              [("question", VStr "What is RAG?");
               ("answer", VStr "Retrieval-augmented generation.");
               ("processing_time_ms", VFloat (-1))]) as (_ & _ & H).
  apply (H (VFloat (-1)) (-1)%float); reflexivity.
Defined.

(** A numeric string, negative or not, is a processing time. *)
Example QueryResponse_time_from_a_string :
  validate (VDict [("question", VStr "What is RAG?");
                   ("answer", VStr "Retrieval-augmented generation.");
                   ("processing_time_ms", VStr "12.5")])
  = Ok (mk "What is RAG?" "Retrieval-augmented generation." None
          12.5%float None)
  /\ validate (VDict [("question", VStr "What is RAG?");
                      ("answer", VStr "Retrieval-augmented generation.");
                      ("processing_time_ms", VStr "-1")])
     = Ok (mk "What is RAG?" "Retrieval-augmented generation." None
             (-1)%float None).
Proof. split; reflexivity. Qed.

End QueryResponseExamples.

(** ** The query pipeline *)

Section QueryPipelineProperties.

Variable index : VectorIndex.
Variable generator : Generator.
Variable metrics : Metrics.
Variable options : Options.

Context {parser : FloatParser}.

Lemma insert_hit_length h l :
  List.length (insert_hit h l) = S (List.length l).
Proof.
  induction l as [|h' l IH]; simpl; [reflexivity|].
  destruct (snd h' <? snd h)%float; simpl; congruence.
Qed.

Lemma rank_length hits :
  List.length (rank hits) = List.length hits.
Proof.
  unfold rank.
  assert (H : forall ranked,
             List.length (fold_left (fun r h => insert_hit h r) hits ranked)
             = List.length hits + List.length ranked).
  { induction hits as [|h hits IH]; intros ranked; simpl; [reflexivity|].
    rewrite IH, insert_hit_length; lia. }
  rewrite H; simpl; lia.
Qed.

(** The Retriever returns the [k] best hits, or all of them when the
    index holds fewer. *)
Lemma retrieve_length question k passages hits :
  search index question = Some hits ->
  retrieve index question k = inr passages ->
  List.length passages = Nat.min k (List.length hits).
Proof.
  unfold retrieve; intros -> H; inversion H; subst.
  now rewrite length_map, length_firstn, rank_length.
Qed.

Lemma retrieve_at_most question k passages :
  retrieve index question k = inr passages ->
  List.length passages <= k.
Proof.
  unfold retrieve; destruct (search index question) as [hits|] eqn:Hs;
    [|discriminate].
  intros H; inversion H; subst.
  rewrite length_map, length_firstn; lia.
Qed.

Lemma retrieve_unavailable question k e :
  retrieve index question k = inl e <-> search index question = None.
Proof.
  unfold retrieve; destruct (search index question); destruct e;
    split; congruence.
Qed.

(** A query is [Done] exactly when retrieval and generation both
    succeeded, and then the result is assembled from their outputs. *)
Lemma answer_Done query r :
  answer index generator metrics options query = Done r <->
  exists passages text,
    retrieve index (QueryRequest.question query) (top_k options)
    = inr passages
    /\ generate generator (QueryRequest.question query) passages = inr text
    /\ r = QueryResponse.mk
             (QueryRequest.question query)
             text
             (if QueryRequest.include_sources query
              then Some passages else None)
             (elapsed_ms options query)
             (if QueryRequest.enable_evaluation query
              then Some (score metrics (QueryRequest.question query)
                           text passages)
              else None).
Proof.
  unfold answer.
  destruct (retrieve index (QueryRequest.question query) (top_k options))
    as [[]|passages] eqn:Hr.
  - split; [discriminate | intros (? & ? & ? & _); discriminate].
  - destruct (generate generator (QueryRequest.question query) passages)
      as [message|text] eqn:Hg; split.
    + discriminate.
    + intros (ps & t & Hps & Ht & _); congruence.
    + intros H; inversion H; eauto.
    + intros (ps & t & Hps & Ht & ->).
      injection Hps as <-.
      rewrite Hg in Ht; injection Ht as <-.
      reflexivity.
Qed.

(** C5.  For a validated request, the pipeline ends in exactly one of
    three ways: [Done], with the text of the generator as the answer of
    the result; [RetrievalFailed], when the index cannot be reached; or
    [GenerationFailed], with the message of the generator.  On the side
    of the schema, the answer of an accepted [QueryResponse] is a string
    of the data, and data with no answer, or with [None] for it, are
    rejected. *)
Theorem answer_returns_or_fails (data : pydict) (query : QueryRequest.t) :
  QueryRequest.validate (VDict data) = Ok query ->
  let result := answer index generator metrics options query in
  let question := QueryRequest.question query in
  1 <= String.length question <= 1000
  /\ ((exists passages text r,
      retrieve index question (top_k options) = inr passages
      /\ generate generator question passages = inr text
      /\ result = Done r
      /\ QueryResponse.answer r = text)
   \/ (search index question = None
       /\ exists message, result = Failed (RetrievalFailed message))
   \/ (exists passages message,
         retrieve index question (top_k options) = inr passages
         /\ generate generator question passages = inl message
         /\ result = Failed (GenerationFailed message)))
  /\ (forall r e, result = Done r -> result <> Failed e)
  /\ (forall m m', result = Failed (RetrievalFailed m) ->
                   result <> Failed (GenerationFailed m'))
  /\ (forall response_data,
        (forall r, QueryResponse.validate (VDict response_data) = Ok r ->
           lookup "answer" response_data
           = Some (VStr (QueryResponse.answer r)))
        /\ (lookup "answer" response_data = None
            \/ lookup "answer" response_data = Some VNone ->
            is_ok (QueryResponse.validate (VDict response_data)) = false)).
Proof.
  intros Hvalid result question.
  split; [|split; [|split; [|split]]].
  - now apply QueryRequest_accepted_question in Hvalid.
  - subst result; unfold answer; fold question.
    destruct (retrieve index question (top_k options))
      as [[]|passages] eqn:Hr.
    + right; left; split; [|eauto].
      now apply (retrieve_unavailable question (top_k options)
                   IndexUnavailable).
    + destruct (generate generator question passages)
        as [message|text] eqn:Hg.
      * right; right; eauto.
      * left; exists passages, text; eauto.
  - intros r e ->; discriminate.
  - intros m m' ->; discriminate.
  - intros response_data.
    destruct (QueryResponse_answer_required response_data) as (H & Hm & Hn).
    split; [exact H|].
    intros [Hnone | Hnone]; [now apply Hm | now apply Hn].
Qed.

(** C4.  When evaluation is enabled, retrieval and generation succeed
    and the metrics fail with a message, the query is [Done] and its
    result carries an evaluation with null scores and that message as
    its error; this evaluation is a valid [EvaluationScores] instance.
    All four fields of the schema default to [None], so that the empty
    instance and the instance with only an error are accepted. *)
Theorem evaluation_failure_is_recorded
  (query : QueryRequest.t) (passages : list SourceDocument.t)
  (text message : string) :
  let question := QueryRequest.question query in
  QueryRequest.enable_evaluation query = true ->
  retrieve index question (top_k options) = inr passages ->
  generate generator question passages = inr text ->
  measure metrics question text passages = Raised message ->
  (exists r e,
     answer index generator metrics options query = Done r
     /\ QueryResponse.evaluation r = Some e
     /\ EvaluationScores.faithfulness e = None
     /\ EvaluationScores.answer_relevancy e = None
     /\ EvaluationScores.error e = Some message
     /\ EvaluationScores.validate (EvaluationScores.model_dump e) = Ok e)
  /\ default EvaluationScores.faithfulness_field = Default None
  /\ default EvaluationScores.answer_relevancy_field = Default None
  /\ default EvaluationScores.evaluation_time_ms_field = Default None
  /\ default EvaluationScores.error_field = Default None
  /\ EvaluationScores.validate (VDict [])
     = Ok (EvaluationScores.mk None None None None)
  /\ EvaluationScores.validate (VDict [("error", VStr message)])
     = Ok (EvaluationScores.mk None None None (Some message)).
Proof.
  intros question Henabled Hr Hg Hm.
  split; [|repeat split].
  eexists; eexists; split; [|split; [|split; [|split; [|split]]]].
  - apply answer_Done; exists passages, text; eauto.
  - simpl; rewrite Henabled; reflexivity.
  - unfold score; fold question; now rewrite Hm.
  - unfold score; fold question; now rewrite Hm.
  - unfold score; fold question; now rewrite Hm.
  - unfold score; fold question; now rewrite Hm.
Qed.

(** C6.  In the result of a query that is [Done], the sources are
    absent when [include_sources] is false and are, when it is true,
    the retrieved passages, at most [top_k] of them; the evaluation is
    absent when [enable_evaluation] is false.  With an index that can
    be reached and a generator that answers, the query is [Done].  In
    the schema both fields default to [None], and a response whose data
    leave them out, or give [None] for them, has them [None]. *)
Theorem sources_and_evaluation_follow_the_flags (query : QueryRequest.t) :
  let result := answer index generator metrics options query in
  let question := QueryRequest.question query in
  (forall r, result = Done r ->
     (QueryRequest.include_sources query = false ->
      QueryResponse.sources r = None)
     /\ (QueryRequest.include_sources query = true ->
         exists passages,
           QueryResponse.sources r = Some passages
           /\ List.length passages <= top_k options)
     /\ (QueryRequest.enable_evaluation query = false ->
         QueryResponse.evaluation r = None))
  /\ (forall hits text,
        search index question = Some hits ->
        generate generator question
          (map fst (firstn (top_k options) (rank hits))) = inr text ->
        exists r, result = Done r)
  /\ default QueryResponse.sources_field = Default None
  /\ default QueryResponse.evaluation_field = Default None
  /\ (forall response_data r,
        QueryResponse.validate (VDict response_data) = Ok r ->
        (lookup "sources" response_data = None
         \/ lookup "sources" response_data = Some VNone ->
         QueryResponse.sources r = None)
        /\ (lookup "evaluation" response_data = None
            \/ lookup "evaluation" response_data = Some VNone ->
            QueryResponse.evaluation r = None)).
Proof.
  intros result question.
  split; [|split; [|split; [reflexivity|split; [reflexivity|]]]].
  - intros r H; apply answer_Done in H as (passages & text & Hr & _ & ->).
    simpl; repeat split.
    + now intros ->.
    + intros ->; exists passages; split; [reflexivity|].
      now apply retrieve_at_most in Hr.
    + now intros ->.
  - intros hits text Hs Hg.
    eexists; apply answer_Done.
    exists (map fst (firstn (top_k options) (rank hits))), text.
    fold question; unfold retrieve; rewrite Hs; eauto.
  - intros response_data r H.
    now apply QueryResponse_optional_absent.
Qed.

End QueryPipelineProperties.

(** ** The scenarios *)

Section Scenarios.

#[local] Existing Instance decimal.

Lemma answer_returns_or_fails_witness :
  1 <= String.length "What is RAG?" <= 1000
  /\ answer four_chunks answering failing top_4
       (QueryRequest.mk "What is RAG?" true false)
     <> Failed (GenerationFailed "generation timed out").
Proof.
  destruct (answer_returns_or_fails four_chunks answering failing top_4
              [("question", VStr "What is RAG?")]
              (QueryRequest.mk "What is RAG?" true false) eq_refl)
    as (Hlen & _ & Hdone & _).
  split; [exact Hlen|].
  apply (Hdone
           (QueryResponse.mk "What is RAG?" "Retrieval-augmented generation."
              (Some [chunk "second"; chunk "first"; chunk "third";
                     chunk "fourth"])
              120%float None)).
  reflexivity.
Defined.

Lemma evaluation_failure_is_recorded_witness :
  exists r e,
    answer four_chunks answering failing top_4
      (QueryRequest.mk "What is RAG?" true true) = Done r
    /\ QueryResponse.evaluation r = Some e
    /\ EvaluationScores.faithfulness e = None
    /\ EvaluationScores.answer_relevancy e = None
    /\ EvaluationScores.error e = Some "evaluator unavailable"
    /\ EvaluationScores.validate (EvaluationScores.model_dump e) = Ok e.
Proof.
  apply (evaluation_failure_is_recorded four_chunks answering failing top_4
           (QueryRequest.mk "What is RAG?" true true)
           [chunk "second"; chunk "first"; chunk "third"; chunk "fourth"]
           "Retrieval-augmented generation." "evaluator unavailable");
    reflexivity.
Defined.

Lemma sources_and_evaluation_follow_the_flags_witness :
  (exists passages,
     QueryResponse.sources
       (QueryResponse.mk "What is RAG?" "Retrieval-augmented generation."
          (Some [chunk "second"; chunk "first"; chunk "third";
                 chunk "fourth"])
          120%float None)
     = Some passages
     /\ List.length passages <= 4)
  /\ QueryResponse.evaluation
       (QueryResponse.mk "What is RAG?" "Retrieval-augmented generation."
          (Some [chunk "second"; chunk "first"; chunk "third";
                 chunk "fourth"])
          120%float None)
     = None.
Proof.
  destruct (sources_and_evaluation_follow_the_flags
              four_chunks answering failing top_4
              (QueryRequest.mk "What is RAG?" true false)) as (H & _).
  destruct (H (QueryResponse.mk "What is RAG?"
                 "Retrieval-augmented generation."
                 (Some [chunk "second"; chunk "first"; chunk "third";
                        chunk "fourth"])
                 120%float None) eq_refl) as (_ & Hsources & Hevaluation).
  split; [apply Hsources | apply Hevaluation]; reflexivity.
Defined.

(** Four matching chunks and k = 4: four sources, best first, a
    non-empty answer and no evaluation. *)
Example scenario_four_chunks :
  answer four_chunks answering failing top_4
    (QueryRequest.mk "What is RAG?" true false)
  = Done (QueryResponse.mk "What is RAG?" "Retrieval-augmented generation."
            (Some [chunk "second"; chunk "first"; chunk "third";
                   chunk "fourth"])
            120%float None).
Proof. reflexivity. Qed.

(** The generation service times out: no result. *)
Example scenario_generation_timeout :
  answer four_chunks timing_out failing top_4
    (QueryRequest.mk "What is RAG?" true false)
  = Failed (GenerationFailed "generation timed out").
Proof. reflexivity. Qed.

(** The index cannot be reached: no result. *)
Example scenario_index_unreachable :
  answer unreachable answering failing top_4
    (QueryRequest.mk "What is RAG?" true false)
  = Failed (RetrievalFailed "vector index unavailable").
Proof. reflexivity. Qed.

End Scenarios.

(** * Further properties of the schemas *)

(** ** Validators of single values *)

Ltac break_if :=
  match goal with
  | |- context [if ?b then _ else _] => destruct b eqn:?; simpl
  end.

Lemma str_validator_single min_length max_length v :
  single_error (str_validator min_length max_length v).
Proof.
  unfold str_validator, fail; destruct v; simpl; eauto.
  destruct (check_min_length min_length s); simpl; eauto.
  destruct (check_max_length max_length s); simpl; eauto.
Qed.

Lemma bool_validator_single v : single_error (bool_validator v).
Proof.
  unfold bool_validator, fail; destruct v; simpl; eauto;
    repeat break_if; eauto.
Qed.

(** The kinds of error of a value that is not a boolean. *)
Example bool_validator_kinds :
  bool_validator (VInt 1) = Ok true
  /\ bool_validator (VFloat 0) = Ok false
  /\ bool_validator (VStr "Yes") = Ok true
  /\ bool_validator (VInt 2) = fail bool_parsing
  /\ bool_validator (VFloat 2) = fail bool_parsing
  /\ bool_validator (VStr "maybe") = fail bool_parsing
  /\ bool_validator (VInt (2 ^ 64)) = fail bool_type
  /\ bool_validator (VFloat 0.5) = fail bool_type
  /\ bool_validator (VFloat nan) = fail bool_type
  /\ bool_validator (VFloat infinity) = fail bool_type
  /\ bool_validator VNone = fail bool_type.
Proof. repeat split; reflexivity. Qed.

Lemma check_bounds_single ge le f : single_error (check_bounds ge le f).
Proof.
  unfold check_bounds, fail.
  destruct (check_le le f); simpl; eauto.
  destruct (check_ge ge f); simpl; eauto.
Qed.

Lemma float_validator_single {parser : FloatParser} ge le v :
  single_error (float_validator ge le v).
Proof.
  unfold float_validator, to_float, fail; destruct v; simpl;
    eauto using check_bounds_single.
  - destruct (is_infinity (float_of_Z z)); simpl;
      eauto using check_bounds_single.
  - destruct (parse_float s); simpl; eauto using check_bounds_single.
Qed.

Lemma dict_validator_single v : single_error (dict_validator v).
Proof. destruct v; simpl; eauto. Qed.

Lemma nullable_single {A} (inner : value -> result A) v :
  single_error (inner v) -> single_error (nullable inner v).
Proof.
  destruct v; simpl; auto; destruct (inner _); simpl; auto.
Qed.

Lemma str_validator_not_a_string min_length max_length v :
  (forall s, v <> VStr s) ->
  str_validator min_length max_length v = fail string_type.
Proof. destruct v; simpl; try reflexivity; intros H; now destruct (H s). Qed.



(** The keys that validation looks up decide its result. *)
Lemma read_ext {A} (f : FieldInfo A) data data' :
  lookup (name f) data = lookup (name f) data' ->
  read f data = read f data'.
Proof. unfold read; now intros ->. Qed.

Lemma lookup_other k k' v data :
  k <> k' -> lookup k ((k', v) :: data) = lookup k data.
Proof. intros H; simpl; now apply String.eqb_neq in H as ->. Qed.

(** ** More on QueryRequest *)

Section QueryRequestFurther.

Import QueryRequest.

(** X1.  The question is required and must be a string: a request
    without it is rejected with [missing], and a request whose question
    is not a string with [string_type], at the field [question]. *)
Theorem QueryRequest_question_required (data : pydict) :
  (lookup "question" data = None ->
   is_ok (validate (VDict data)) = false
   /\ In (mk_error [Key "question"] missing)
         (errors_of (validate (VDict data))))
  /\ (forall v, lookup "question" data = Some v ->
       (forall s, v <> VStr s) ->
       is_ok (validate (VDict data)) = false
       /\ In (mk_error [Key "question"] string_type)
             (errors_of (validate (VDict data)))).
Proof.
  split.
  - intros H; rewrite QueryRequest_is_ok, QueryRequest_errors.
    rewrite (read_missing question_field data eq_refl H); simpl; auto.
  - intros v H Hv; rewrite QueryRequest_is_ok, QueryRequest_errors.
    rewrite (read_given question_field data v H).
    change (validator question_field)
      with (str_validator (Some 1) (Some 1000)).
    rewrite (str_validator_not_a_string _ _ v Hv); simpl; auto.
Qed.

Lemma QueryRequest_question_required_witness :
  is_ok (validate (VDict [("question", VInt 42)])) = false
  /\ In (mk_error [Key "question"] string_type)
        (errors_of (validate (VDict [("question", VInt 42)]))).
Proof.
  destruct (QueryRequest_question_required [("question", VInt 42)])
    as (_ & H).
  apply (H (VInt 42)); [reflexivity | discriminate].
Defined.

(** X2.  A flag given as a boolean is kept as given; a flag given as
    [None] is not replaced by its default: the request is rejected with
    [bool_type] at the flag. *)
Theorem QueryRequest_flags_as_given (data : pydict) :
  (forall q, validate (VDict data) = Ok q ->
     (forall b, lookup "include_sources" data = Some (VBool b) ->
                include_sources q = b)
     /\ (forall b, lookup "enable_evaluation" data = Some (VBool b) ->
                   enable_evaluation q = b))
  /\ (forall k, In k ["include_sources"; "enable_evaluation"] ->
       lookup k data = Some VNone ->
       is_ok (validate (VDict data)) = false
       /\ In (mk_error [Key k] bool_type)
             (errors_of (validate (VDict data)))).
Proof.
  split.
  - intros q H; apply QueryRequest_Ok in H as (_ & Hi & He).
    split; intros b Hb.
    + rewrite (read_given include_sources_field data _ Hb) in Hi.
      simpl in Hi; congruence.
    + rewrite (read_given enable_evaluation_field data _ Hb) in He.
      simpl in He; congruence.
  - intros k Hk Hnone; rewrite QueryRequest_is_ok, QueryRequest_errors.
    simpl in Hk; destruct Hk as [<- | [<- | []]].
    + rewrite (read_given include_sources_field data _ Hnone); simpl.
      split; [now rewrite andb_false_r|].
      apply in_or_app; right; simpl; auto.
    + rewrite (read_given enable_evaluation_field data _ Hnone); simpl.
      split; [now rewrite andb_false_r|].
      apply in_or_app; right; apply in_or_app; right; simpl; auto.
Qed.

Lemma QueryRequest_flags_as_given_witness :
  include_sources (mk "What is RAG?" false true) = false
  /\ is_ok (validate (VDict [("question", VStr "What is RAG?");
                             ("enable_evaluation", VNone)])) = false.
Proof.
  split.
  - destruct (QueryRequest_flags_as_given
                [("question", VStr "What is RAG?");
                 ("include_sources", VBool false);
                 ("enable_evaluation", VBool true)]) as (H & _).
    apply (H (mk "What is RAG?" false true) eq_refl); reflexivity.
  - destruct (QueryRequest_flags_as_given
                [("question", VStr "What is RAG?");
                 ("enable_evaluation", VNone)]) as (_ & H).
    apply (H "enable_evaluation"); [simpl; auto | reflexivity].
Defined.




(** X4.  Only the three declared keys matter: two dicts that agree on
    them validate alike, so that an undeclared key is ignored. *)
Theorem QueryRequest_ignores_undeclared_keys (data data' : pydict) :
  (forall k, In k ["question"; "include_sources"; "enable_evaluation"] ->
             lookup k data = lookup k data') ->
  validate (VDict data) = validate (VDict data').
Proof.
  intros H; unfold validate, model.
  rewrite (read_ext question_field data data'),
    (read_ext include_sources_field data data'),
    (read_ext enable_evaluation_field data data');
    try reflexivity; apply H; simpl; auto.
Qed.

Lemma QueryRequest_ignores_undeclared_keys_witness :
  validate (VDict [("top_k", VInt 10); ("question", VStr "What is RAG?")])
  = validate (VDict [("question", VStr "What is RAG?")]).
Proof.
  apply QueryRequest_ignores_undeclared_keys.
  intros k [<- | [<- | [<- | []]]]; reflexivity.
Defined.

(** X5.  The dump of a request validates to the request again exactly
    when its question has 1 to 1000 characters, as the question of
    every accepted request has. *)
Theorem QueryRequest_round_trip (q : t) :
  (validate (model_dump q) = Ok q <-> 1 <= String.length (question q) <= 1000)
  /\ (forall v, validate v = Ok q -> validate (model_dump q) = Ok q).
Proof.
  assert (Hiff : validate (model_dump q) = Ok q
                 <-> 1 <= String.length (question q) <= 1000).
  { split.
    - intros H.
      now apply (QueryRequest_accepted_question _ q) in H as (_ & H).
    - intros H; unfold validate, model_dump, model.
      set (data := [("question", VStr (question q));
                    ("include_sources", VBool (include_sources q));
                    ("enable_evaluation", VBool (enable_evaluation q))]).
      rewrite (read_given question_field data (VStr (question q)) eq_refl).
      rewrite (read_given include_sources_field data
                 (VBool (include_sources q)) eq_refl).
      rewrite (read_given enable_evaluation_field data
                 (VBool (enable_evaluation q)) eq_refl).
      change (validator question_field)
        with (str_validator (Some 1) (Some 1000)).
      rewrite (str_validator_in_range 1 1000 _ H); now destruct q. }
  split; [exact Hiff|].
  intros v H; apply Hiff.
  destruct v; try discriminate.
  now apply QueryRequest_accepted_question in H as (_ & H).
Qed.

Lemma QueryRequest_round_trip_witness :
  validate (model_dump (mk "What is RAG?" true false))
  = Ok (mk "What is RAG?" true false).
Proof.
  apply (QueryRequest_round_trip (mk "What is RAG?" true false)).
  simpl; lia.
Defined.

End QueryRequestFurther.

(** ** Lists *)

Lemma validate_items_Ok {A} (inner : value -> result A) i l out :
  validate_items inner i l = Ok out <->
  Forall2 (fun v a => inner v = Ok a) l out.
Proof.
  revert i out; induction l as [|v l IH]; intros i out; simpl.
  - split; intros H; inversion H; subst; auto.
  - split.
    + intros H; apply ap_Ok in H as (f & tl & H & Htl & ->).
      apply fmap_Ok in H as (a & Ha & ->).
      apply at_loc_Ok in Ha; apply IH in Htl; auto.
    + intros H; inversion H as [|? a ? tl Ha Htl]; subst.
      apply (IH (S i)) in Htl; rewrite Ha, Htl; reflexivity.
Qed.

Lemma validate_items_is_ok {A} (inner : value -> result A) i l :
  is_ok (validate_items inner i l) = forallb (fun v => is_ok (inner v)) l.
Proof.
  revert i; induction l as [|v l IH]; intros i; simpl; [reflexivity|].
  now rewrite is_ok_ap, is_ok_fmap, is_ok_at_loc, IH.
Qed.

(** The errors of the item at position [n] are reported under the
    index of the item. *)
Lemma validate_items_errors {A} (inner : value -> result A) i l n v e :
  nth_error l n = Some v ->
  In e (errors_of (inner v)) ->
  In (mk_error (Index (i + n) :: loc e) (type e))
     (errors_of (validate_items inner i l)).
Proof.
  revert i n; induction l as [|v' l IH]; intros i n Hn He.
  - destruct n; discriminate.
  - simpl; rewrite errors_of_ap, errors_of_fmap; apply in_or_app.
    destruct n as [|n]; simpl in Hn.
    + left; injection Hn as ->; rewrite Nat.add_0_r.
      destruct (inner v) as [a|es]; simpl in *; [contradiction|].
      now apply (in_map (fun e => mk_error (Index i :: loc e) (type e))).
    + right; replace (i + S n) with (S i + n) by lia; now apply IH.
Qed.

Lemma at_loc_errors {A} k (r : result A) e :
  In e (errors_of r) ->
  In (mk_error (k :: loc e) (type e)) (errors_of (at_loc k r)).
Proof.
  destruct r as [a|es]; simpl; [contradiction|].
  apply (in_map (fun e => mk_error (k :: loc e) (type e))).
Qed.

(** ** SourceDocument *)

Section SourceDocumentProperties.

Import SourceDocument.

Lemma SourceDocument_Ok data d :
  validate (VDict data) = Ok d <->
  read content_field data = Ok (content d)
  /\ read metadata_field data = Ok (metadata d).
Proof.
  split.
  - unfold validate; intros H; accepted_fields H; auto.
  - intros (Hc & Hm); unfold validate, model.
    rewrite Hc, Hm; now destruct d.
Qed.

(** X6.  A source document is accepted exactly when the data give a
    string for [content] and a dict for [metadata]; both are kept
    unchanged, whatever the string (the empty one included) and
    whatever the dict.  The dump of any source document validates to
    the document again. *)
Theorem SourceDocument_accepted_iff (data : pydict) (d : t) :
  (validate (VDict data) = Ok d <->
   lookup "content" data = Some (VStr (content d))
   /\ lookup "metadata" data = Some (VDict (metadata d)))
  /\ validate (model_dump d) = Ok d.
Proof.
  assert (Hiff : forall data,
             validate (VDict data) = Ok d <->
             lookup "content" data = Some (VStr (content d))
             /\ lookup "metadata" data = Some (VDict (metadata d))).
  { clear data; intros data; rewrite SourceDocument_Ok; split.
    - intros (Hc & Hm).
      apply read_Required_Ok in Hc as (vc & Hc & Hvc); [|reflexivity].
      apply read_Required_Ok in Hm as (vm & Hm & Hvm); [|reflexivity].
      apply str_validator_Ok in Hvc as (-> & _).
      apply dict_validator_Ok in Hvm as ->; auto.
    - intros (Hc & Hm).
      now rewrite (read_given content_field data _ Hc),
        (read_given metadata_field data _ Hm). }
  split; [apply Hiff|].
  unfold model_dump; apply Hiff; auto.
Qed.

End SourceDocumentProperties.

(** ** More on EvaluationScores *)

Section EvaluationScoresFurther.

Import EvaluationScores.

Context {parser : FloatParser}.

Lemma score_field_round_trip (f : FieldInfo (option float)) data o :
  validator f = nullable (float_validator (Some 0%float) (Some 1%float)) ->
  lookup (name f) data = Some (dump_optional VFloat o) ->
  (forall x, o = Some x -> in_unit_interval x = true) ->
  read f data = Ok o.
Proof.
  intros Hv Hl Hin; destruct o as [x|]; simpl in Hl.
  - apply score_field_inside; auto.
  - now rewrite (read_given f data _ Hl), Hv.
Qed.

Lemma EvaluationScores_dump_accepted e :
  (forall x, faithfulness e = Some x -> in_unit_interval x = true) ->
  (forall x, answer_relevancy e = Some x -> in_unit_interval x = true) ->
  validate (model_dump e) = Ok e.
Proof.
  intros Hf Ha; unfold model_dump; apply EvaluationScores_Ok.
  repeat split.
  - now apply score_field_round_trip.
  - now apply score_field_round_trip.
  - destruct (evaluation_time_ms e) eqn:Ht; reflexivity.
  - destruct (error e) eqn:He; reflexivity.
Qed.

Lemma EvaluationScores_accepted_scores v e :
  validate v = Ok e ->
  (forall x, faithfulness e = Some x -> in_unit_interval x = true)
  /\ (forall x, answer_relevancy e = Some x -> in_unit_interval x = true).
Proof.
  destruct v; try discriminate.
  intros H; apply EvaluationScores_Ok in H as (Hf & Ha & _).
  split; intros x Hx; rewrite Hx in *.
  - now apply (score_field_Some faithfulness_field d).
  - now apply (score_field_Some answer_relevancy_field d).
Qed.

(** X7.  The dump of an instance validates to the instance again
    exactly when the scores it holds lie in the unit interval, as the
    scores of every accepted instance do: validation accepts its own
    output unchanged. *)
Theorem EvaluationScores_round_trip (e : t) :
  (validate (model_dump e) = Ok e <->
   (forall x, faithfulness e = Some x -> in_unit_interval x = true)
   /\ (forall x, answer_relevancy e = Some x -> in_unit_interval x = true))
  /\ (forall v, validate v = Ok e -> validate (model_dump e) = Ok e).
Proof.
  split; [split|].
  - apply EvaluationScores_accepted_scores.
  - intros (Hf & Ha); now apply EvaluationScores_dump_accepted.
  - intros v H; apply EvaluationScores_accepted_scores in H as (Hf & Ha).
    now apply EvaluationScores_dump_accepted.
Qed.

(** X8.  The evaluation time and the error message are unconstrained:
    any float given for the time (a negative one, an infinity) and any
    string given for the error (the empty one) is accepted and kept, so
    that only the two scores can have an instance rejected. *)
Theorem EvaluationScores_time_and_error_unconstrained
  (data : pydict) (time : float) (message : string) :
  lookup "evaluation_time_ms" data = Some (VFloat time) ->
  lookup "error" data = Some (VStr message) ->
  read evaluation_time_ms_field data = Ok (Some time)
  /\ read error_field data = Ok (Some message)
  /\ is_ok (validate (VDict data))
     = is_ok (read faithfulness_field data)
       && is_ok (read answer_relevancy_field data)
  /\ (forall e, validate (VDict data) = Ok e ->
        evaluation_time_ms e = Some time /\ error e = Some message).
Proof.
  intros Ht He.
  assert (Htime : read evaluation_time_ms_field data = Ok (Some time))
    by (now rewrite (read_given evaluation_time_ms_field data _ Ht)).
  assert (Herror : read error_field data = Ok (Some message))
    by (now rewrite (read_given error_field data _ He)).
  repeat split; auto.
  - rewrite EvaluationScores_is_ok, Htime, Herror; simpl.
    now rewrite !andb_true_r.
  - apply EvaluationScores_Ok in H as (_ & _ & H & _); congruence.
  - apply EvaluationScores_Ok in H as (_ & _ & _ & H); congruence.
Qed.

End EvaluationScoresFurther.

Section EvaluationScoresFurtherExamples.

Import EvaluationScores.

#[local] Existing Instance decimal.

Lemma EvaluationScores_round_trip_witness :
  validate (model_dump (mk (Some 0.75%float) None (Some 12.5%float) None))
  = Ok (mk (Some 0.75%float) None (Some 12.5%float) None).
Proof.
  apply (EvaluationScores_round_trip
           (mk (Some 0.75%float) None (Some 12.5%float) None)
         ).
  split; intros x H; inversion H; reflexivity.
Defined.

Lemma EvaluationScores_time_and_error_unconstrained_witness :
  evaluation_time_ms (mk None None (Some (-5)%float) (Some ""))
  = Some (-5)%float
  /\ error (mk None None (Some (-5)%float) (Some "")) = Some "".
Proof.
  destruct (EvaluationScores_time_and_error_unconstrained
              [("evaluation_time_ms", VFloat (-5)); ("error", VStr "")]
              (-5)%float "" eq_refl eq_refl) as (_ & _ & _ & H).
  apply (H (mk None None (Some (-5)%float) (Some ""))); reflexivity.
Defined.

End EvaluationScoresFurtherExamples.

Lemma SourceDocument_accepted_iff_witness :
  SourceDocument.validate
    (VDict [("content", VStr ""); ("metadata", VDict [])])
  = Ok (SourceDocument.mk "" []).
Proof.
  apply (SourceDocument_accepted_iff
           [("content", VStr ""); ("metadata", VDict [])]
           (SourceDocument.mk "" [])).
Defined.

(** ** More on QueryResponse *)

Section QueryResponseFurther.

Import QueryResponse.

Context {parser : FloatParser}.

Lemma SourceDocument_dump_accepted d :
  SourceDocument.validate (SourceDocument.model_dump d) = Ok d.
Proof. now destruct d. Qed.

Lemma SourceDocument_dumps_accepted l :
  Forall2 (fun v d => SourceDocument.validate v = Ok d)
    (map SourceDocument.model_dump l) l.
Proof.
  induction l; simpl; constructor; auto using SourceDocument_dump_accepted.
Qed.

Lemma QueryResponse_accepted_sources data r docs :
  validate (VDict data) = Ok r ->
  sources r = Some docs ->
  exists l, lookup "sources" data = Some (VList l)
            /\ Forall2 (fun v d => SourceDocument.validate v = Ok d) l docs.
Proof.
  intros H Hdocs; apply QueryResponse_Ok in H as (_ & _ & H & _).
  rewrite Hdocs in H.
  apply (read_optional_Some sources_field _ data docs eq_refl eq_refl) in H
    as (v & Hv & H).
  destruct v; try discriminate.
  apply validate_items_Ok in H; eauto.
Qed.

Lemma QueryResponse_accepted_evaluation data r e :
  validate (VDict data) = Ok r ->
  evaluation r = Some e ->
  exists v, lookup "evaluation" data = Some v
            /\ EvaluationScores.validate v = Ok e.
Proof.
  intros H He; apply QueryResponse_Ok in H as (_ & _ & _ & _ & H).
  rewrite He in H.
  now apply (read_optional_Some evaluation_field _ data e eq_refl eq_refl)
    in H.
Qed.

(** X9.  The sources of an accepted response are the items of the list
    given in the data, validated one by one and kept in their order:
    there are as many, and each is the source document its item
    validates to. *)
Theorem QueryResponse_sources_in_order
  (data : pydict) (r : t) (docs : list SourceDocument.t) :
  validate (VDict data) = Ok r ->
  sources r = Some docs ->
  exists l,
    lookup "sources" data = Some (VList l)
    /\ List.length docs = List.length l
    /\ forall n v, nth_error l n = Some v ->
         exists d, nth_error docs n = Some d
                   /\ SourceDocument.validate v = Ok d.
Proof.
  intros H Hdocs.
  destruct (QueryResponse_accepted_sources data r docs H Hdocs)
    as (l & Hl & Hall).
  exists l; split; [assumption|].
  clear H Hdocs Hl; induction Hall as [|v d l docs Hv Hall [Hlen IH]].
  - split; [reflexivity|]; intros [|n] v Hn; discriminate.
  - split; [simpl; congruence|].
    intros [|n] v' Hn; simpl in *.
    + injection Hn as <-; eauto.
    + now apply IH.
Qed.

(** X10.  The bounds of the scores hold inside a response: in the
    evaluation of an accepted response, a faithfulness or answer
    relevancy score that is present lies in the unit interval. *)
Theorem QueryResponse_evaluation_in_unit_interval
  (data : pydict) (r : t) (e : EvaluationScores.t) :
  validate (VDict data) = Ok r ->
  evaluation r = Some e ->
  (forall x, EvaluationScores.faithfulness e = Some x ->
             in_unit_interval x = true)
  /\ (forall x, EvaluationScores.answer_relevancy e = Some x ->
                in_unit_interval x = true).
Proof.
  intros H He.
  destruct (QueryResponse_accepted_evaluation data r e H He) as (v & _ & Hv).
  now apply EvaluationScores_accepted_scores in Hv.
Qed.

(** X11.  The errors of a nested model are reported under the path to
    it: an error of the evaluation, when it is not given as [None],
    under the key [evaluation], and an error of the item of index [n]
    of the sources under the key [sources] and the index [n]; in both
    cases the response is rejected. *)
Theorem QueryResponse_nested_errors (data : pydict) (e : error_details) :
  (forall v, lookup "evaluation" data = Some v ->
     v <> VNone ->
     In e (errors_of (EvaluationScores.validate v)) ->
     is_ok (validate (VDict data)) = false
     /\ In (mk_error (Key "evaluation" :: loc e) (type e))
           (errors_of (validate (VDict data))))
  /\ (forall l n v, lookup "sources" data = Some (VList l) ->
       nth_error l n = Some v ->
       In e (errors_of (SourceDocument.validate v)) ->
       is_ok (validate (VDict data)) = false
       /\ In (mk_error (Key "sources" :: Index n :: loc e) (type e))
             (errors_of (validate (VDict data)))).
Proof.
  assert (Hrej : forall A (r : result A) e', In e' (errors_of r) ->
                                             is_ok r = false).
  { intros A [a|es] e'; simpl; [contradiction | reflexivity]. }
  split.
  - intros v Hv Hnone He.
    assert (Hin : In (mk_error (Key "evaluation" :: loc e) (type e))
                     (errors_of (read evaluation_field data))).
    { rewrite (read_given evaluation_field data v Hv).
      apply (at_loc_errors (Key "evaluation")); simpl.
      destruct v; simpl in *; try rewrite errors_of_fmap; auto;
        congruence. }
    split.
    + rewrite QueryResponse_is_ok, (Hrej _ _ _ Hin).
      now rewrite andb_false_r.
    + rewrite QueryResponse_errors.
      do 4 (apply in_or_app; right); assumption.
  - intros l n v Hl Hn He.
    assert (Hin : In (mk_error (Key "sources" :: Index n :: loc e) (type e))
                     (errors_of (read sources_field data))).
    { rewrite (read_given sources_field data _ Hl).
      apply (at_loc_errors (Key "sources") _
               (mk_error (Index n :: loc e) (type e))).
      simpl; rewrite errors_of_fmap.
      now apply (validate_items_errors SourceDocument.validate 0 l n v e). }
    split.
    + rewrite QueryResponse_is_ok, (Hrej _ _ _ Hin).
      now rewrite !andb_false_r.
    + rewrite QueryResponse_errors.
      do 2 (apply in_or_app; right); apply in_or_app; left; assumption.
Qed.

End QueryResponseFurther.

Section QueryResponseFurtherExamples.

Import QueryResponse.

#[local] Existing Instance decimal.

Lemma QueryResponse_sources_in_order_witness :
  exists l,
    lookup "sources"
      [("question", VStr "What is RAG?"); ("answer", VStr "");
       ("sources", VList [SourceDocument.model_dump (chunk "first");
                          SourceDocument.model_dump (chunk "second")]);
       ("processing_time_ms", VFloat 120)]
    = Some (VList l)
    /\ List.length [chunk "first"; chunk "second"] = List.length l
    /\ forall n v, nth_error l n = Some v ->
         exists d, nth_error [chunk "first"; chunk "second"] n = Some d
                   /\ SourceDocument.validate v = Ok d.
Proof.
  apply (QueryResponse_sources_in_order
           [("question", VStr "What is RAG?"); ("answer", VStr "");
            ("sources", VList [SourceDocument.model_dump (chunk "first");
                               SourceDocument.model_dump (chunk "second")]);
            ("processing_time_ms", VFloat 120)]
           (mk "What is RAG?" "" (Some [chunk "first"; chunk "second"])
              120%float None));
    reflexivity.
Defined.

Lemma QueryResponse_evaluation_in_unit_interval_witness :
  in_unit_interval 0.25 = true.
Proof.
  destruct (QueryResponse_evaluation_in_unit_interval
              [("question", VStr "What is RAG?"); ("answer", VStr "");
               ("processing_time_ms", VFloat 120);
               ("evaluation", VDict [("faithfulness", VFloat 0.25)])]
              (mk "What is RAG?" "" None 120%float
                 (Some (EvaluationScores.mk (Some 0.25%float) None None None)))
              (EvaluationScores.mk (Some 0.25%float) None None None)
              eq_refl eq_refl) as (H & _).
  now apply H.
Defined.

Lemma QueryResponse_nested_errors_witness :
  In (mk_error [Key "evaluation"; Key "faithfulness"] less_than_equal)
     (errors_of
        (validate
           (VDict [("question", VStr "What is RAG?"); ("answer", VStr "");
                   ("processing_time_ms", VFloat 120);
                   ("evaluation", VDict [("faithfulness", VFloat 1.5)])]))).
Proof.
  destruct (QueryResponse_nested_errors
              [("question", VStr "What is RAG?"); ("answer", VStr "");
               ("processing_time_ms", VFloat 120);
               ("evaluation", VDict [("faithfulness", VFloat 1.5)])]
              (mk_error [Key "faithfulness"] less_than_equal)) as (H & _).
  apply (H (VDict [("faithfulness", VFloat 1.5)]));
    [reflexivity | discriminate | simpl; auto].
Defined.

End QueryResponseFurtherExamples.

Section QueryResponseRoundTrip.

Import QueryResponse.

Context {parser : FloatParser}.

Lemma QueryResponse_dump_accepted r :
  (forall e, evaluation r = Some e ->
     EvaluationScores.validate (EvaluationScores.model_dump e) = Ok e) ->
  validate (model_dump r) = Ok r.
Proof.
  intros He; unfold model_dump; apply QueryResponse_Ok.
  split; [reflexivity|split; [reflexivity|split; [|split; [reflexivity|]]]].
  - destruct (sources r) as [docs|] eqn:Hdocs; [|reflexivity].
    unfold read; simpl lookup; cbv iota; simpl.
    pose proof (SourceDocument_dumps_accepted docs) as H.
    apply (validate_items_Ok SourceDocument.validate 0) in H.
    now rewrite H.
  - destruct (evaluation r) as [e|] eqn:Hev; [|reflexivity].
    unfold read; simpl lookup; cbv iota.
    change (validator evaluation_field)
      with (nullable EvaluationScores.validate).
    now rewrite (nullable_Ok _ _ e (He e eq_refl)).
Qed.

(** X12.  Validation accepts its own output unchanged: the dump of an
    accepted response, with its sources and its evaluation dumped in
    turn, validates to the same response. *)
Theorem QueryResponse_revalidates (v : value) (r : t) :
  validate v = Ok r -> validate (model_dump r) = Ok r.
Proof.
  intros H; destruct v as [| | | | | |data]; try discriminate.
  apply QueryResponse_dump_accepted; intros e He.
  destruct (QueryResponse_accepted_evaluation data r e H He) as (v & _ & Hv).
  apply EvaluationScores_accepted_scores in Hv as (Hf & Ha).
  now apply EvaluationScores_dump_accepted.
Qed.

(** X13.  The strings of a response are unconstrained: with any string
    for the question (longer than 1000 characters or not) and any
    string for the answer (the empty one included), a float for the
    time and neither sources nor an evaluation, the response is
    accepted as given. *)
Theorem QueryResponse_strings_unconstrained
  (data : pydict) (q a : string) (time : float) :
  lookup "question" data = Some (VStr q) ->
  lookup "answer" data = Some (VStr a) ->
  lookup "processing_time_ms" data = Some (VFloat time) ->
  lookup "sources" data = None ->
  lookup "evaluation" data = None ->
  validate (VDict data) = Ok (mk q a None time None).
Proof.
  intros Hq Ha Ht Hs He; apply QueryResponse_Ok; simpl.
  rewrite (read_given question_field data _ Hq),
    (read_given answer_field data _ Ha),
    (read_given processing_time_ms_field data _ Ht),
    (read_omitted sources_field data None eq_refl Hs),
    (read_omitted evaluation_field data None eq_refl He).
  repeat split.
Qed.

End QueryResponseRoundTrip.

Section QueryResponseRoundTripExamples.

Import QueryResponse.

#[local] Existing Instance decimal.

Lemma QueryResponse_revalidates_witness :
  validate
    (model_dump
       (mk "What is RAG?" "Retrieval-augmented generation."
          (Some [chunk "first"]) 120%float
          (Some (EvaluationScores.mk (Some 1%float) None None None))))
  = Ok (mk "What is RAG?" "Retrieval-augmented generation."
          (Some [chunk "first"]) 120%float
          (Some (EvaluationScores.mk (Some 1%float) None None None))).
Proof.
  apply (QueryResponse_revalidates
           (VDict [("question", VStr "What is RAG?");
                   ("answer", VStr "Retrieval-augmented generation.");
                   ("sources",
                    VList [VDict [("content", VStr "first");
                                  ("metadata",
                                   VDict [("source", VStr "rag.pdf")])]]);
                   ("processing_time_ms", VInt 120);
                   ("evaluation", VDict [("faithfulness", VInt 1)])])).
  reflexivity.
Defined.

Lemma QueryResponse_strings_unconstrained_witness :
  validate (VDict [("question", VStr ""); ("answer", VStr "");
                   ("processing_time_ms", VFloat 0)])
  = Ok (mk "" "" None 0%float None).
Proof.
  apply QueryResponse_strings_unconstrained; reflexivity.
Defined.

End QueryResponseRoundTripExamples.

(** ** Rejections name their errors *)

Lemma single_error_informative {A} (r : result A) :
  single_error r -> informative r.
Proof. destruct r as [a|es]; simpl; [auto|]; intros (t & ->); discriminate. Qed.

Lemma informative_fmap {A B} (f : A -> B) (r : result A) :
  informative r -> informative (f <$> r).
Proof. now destruct r. Qed.

Lemma informative_ap {A B} (rf : result (A -> B)) (ra : result A) :
  informative rf -> informative ra -> informative (rf <*> ra).
Proof.
  destruct rf as [f|es1], ra as [a|es2]; simpl; auto.
  intros H1 _ H; now apply app_eq_nil in H as (H & _).
Qed.

Lemma informative_at_loc {A} k (r : result A) :
  informative r -> informative (at_loc k r).
Proof.
  destruct r as [a|es]; simpl; auto.
  intros H Hnil; now apply map_eq_nil in Hnil.
Qed.

Lemma informative_read {A} (f : FieldInfo A) data :
  (forall v, informative (validator f v)) -> informative (read f data).
Proof.
  intros H; unfold read; destruct (lookup (name f) data) as [v|].
  - now apply informative_at_loc.
  - destruct (default f); simpl; [discriminate | trivial].
Qed.

Lemma informative_nullable {A} (inner : value -> result A) v :
  informative (inner v) -> informative (nullable inner v).
Proof. destruct v; simpl; auto using informative_fmap. Qed.

Lemma informative_items {A} (inner : value -> result A) i l :
  (forall v, informative (inner v)) ->
  informative (validate_items inner i l).
Proof.
  intros H; revert i; induction l as [|v l IH]; intros i; simpl; [trivial|].
  apply informative_ap; [|apply IH].
  now apply informative_fmap, informative_at_loc.
Qed.

Lemma informative_list {A} (inner : value -> result A) v :
  (forall v, informative (inner v)) ->
  informative (list_validator inner v).
Proof.
  intros H; destruct v; simpl; try discriminate.
  now apply informative_items.
Qed.

Lemma informative_model {A} (fields : pydict -> result A) v :
  (forall data, informative (fields data)) -> informative (model fields v).
Proof. intros H; destruct v; simpl; try discriminate; apply H. Qed.

Ltac informative_fields :=
  repeat first
    [ apply single_error_informative;
      first [ apply str_validator_single
            | apply bool_validator_single
            | apply float_validator_single
            | apply dict_validator_single ]
    | apply informative_ap
    | apply informative_fmap
    | apply informative_read; intros ?
    | apply informative_nullable
    | apply informative_list; intros ? ].

Lemma SourceDocument_informative v :
  informative (SourceDocument.validate v).
Proof.
  unfold SourceDocument.validate; apply informative_model; intros data.
  informative_fields.
Qed.

Lemma EvaluationScores_informative {parser : FloatParser} v :
  informative (EvaluationScores.validate v).
Proof.
  unfold EvaluationScores.validate; apply informative_model; intros data.
  informative_fields.
Qed.

(** X14.  A response is rejected exactly when validation reports an
    error: whatever the value given, however deep the invalid part (a
    field, an item of the sources, a score of the evaluation), the list
    of errors of a rejection is not empty, and that of an acceptance
    is. *)
Theorem QueryResponse_rejection_names_an_error
  {parser : FloatParser} (v : value) :
  is_ok (QueryResponse.validate v) = false
  <-> errors_of (QueryResponse.validate v) <> [].
Proof.
  assert (H : informative (QueryResponse.validate v)).
  { unfold QueryResponse.validate; apply informative_model; intros data.
    informative_fields.
    - apply SourceDocument_informative.
    - apply EvaluationScores_informative. }
  destruct (QueryResponse.validate v) as [r|es]; simpl in *.
  - split; [discriminate | congruence].
  - split; auto.
Qed.

(** ** Error schemas *)

Lemma dict_items_Ok i l out :
  validate_items dict_validator i l = Ok out <-> l = map VDict out.
Proof.
  rewrite validate_items_Ok; split.
  - induction 1 as [|v d l out Hv _ IH]; simpl; [reflexivity|].
    apply dict_validator_Ok in Hv; congruence.
  - intros ->; induction out; simpl; constructor; auto.
Qed.

Lemma read_Required_string data (f : FieldInfo string) s :
  default f = Required ->
  validator f = str_validator None None ->
  read f data = Ok s <-> lookup (name f) data = Some (VStr s).
Proof.
  intros Hd Hv; split.
  - intros H; apply (read_Required_Ok f data s Hd) in H as (v & Hl & H).
    rewrite Hv in H; now apply str_validator_Ok in H as (-> & _).
  - intros H; now rewrite (read_given f data _ H), Hv.
Qed.

Section ErrorResponseProperties.

Import ErrorResponse.

(** X15.  An error response is accepted exactly when the data give a
    string for [error] and for [message] and, for [detail], a string,
    [None] or nothing; the detail of the response is that string, or
    [None] in the last two cases. *)
Theorem ErrorResponse_accepted_iff (data : pydict) (r : t) :
  validate (VDict data) = Ok r <->
  lookup "error" data = Some (VStr (error r))
  /\ lookup "message" data = Some (VStr (message r))
  /\ match detail r with
     | Some s => lookup "detail" data = Some (VStr s)
     | None => lookup "detail" data = None
               \/ lookup "detail" data = Some VNone
     end.
Proof.
  rewrite <- (read_Required_string data error_field (error r) eq_refl eq_refl).
  rewrite <- (read_Required_string data message_field (message r)
                eq_refl eq_refl).
  assert (Hdetail : read detail_field data = Ok (detail r) <->
                    match detail r with
                    | Some s => lookup "detail" data = Some (VStr s)
                    | None => lookup "detail" data = None
                              \/ lookup "detail" data = Some VNone
                    end).
  { unfold read; simpl name; simpl default.
    change (validator detail_field) with (nullable (str_validator None None)).
    destruct (lookup "detail" data) as [v|], (detail r) as [s|]; split;
      try discriminate; auto; try (intros [H | H]; discriminate).
    - intros H; apply at_loc_Ok, nullable_Some in H.
      now apply str_validator_Ok in H as (-> & _).
    - intros H; injection H as ->; reflexivity.
    - destruct v; simpl; try discriminate; auto.
    - intros [H | H]; [discriminate | injection H as ->; reflexivity]. }
  rewrite <- Hdetail; split.
  - unfold validate; intros H; accepted_fields H; auto.
  - intros (He & Hm & Hd); unfold validate, model.
    rewrite He, Hm, Hd; now destruct r.
Qed.

Lemma ErrorResponse_accepted_iff_witness :
  validate (VDict [("error", VStr "GenerationFailed");
                   ("message", VStr "generation timed out")])
  = Ok (mk "GenerationFailed" "generation timed out" None).
Proof.
  apply (ErrorResponse_accepted_iff
           [("error", VStr "GenerationFailed");
            ("message", VStr "generation timed out")]
           (mk "GenerationFailed" "generation timed out" None)).
  simpl; auto.
Defined.

End ErrorResponseProperties.

Section ValidationErrorResponseProperties.

Import ValidationErrorResponse.

(** X16.  A validation error response is accepted exactly when the
    data give a string for [message], a list of dicts for [errors] and,
    for [error], a string or nothing; the errors are kept in their
    order, and the type of error left out is ["Validation Error"]. *)
Theorem ValidationErrorResponse_accepted_iff (data : pydict) (r : t) :
  validate (VDict data) = Ok r <->
  (lookup "error" data = Some (VStr (error r))
   \/ lookup "error" data = None /\ error r = "Validation Error")
  /\ lookup "message" data = Some (VStr (message r))
  /\ lookup "errors" data = Some (VList (map VDict (errors r))).
Proof.
  rewrite <- (read_Required_string data message_field (message r)
                eq_refl eq_refl).
  assert (Herror : read error_field data = Ok (error r) <->
                   (lookup "error" data = Some (VStr (error r))
                    \/ lookup "error" data = None
                       /\ error r = "Validation Error")).
  { unfold read; simpl name; simpl default.
    change (validator error_field) with (str_validator None None).
    destruct (lookup "error" data) as [v|]; split.
    - intros H; apply at_loc_Ok in H.
      apply str_validator_Ok in H as (-> & _); auto.
    - intros [H | (H & _)]; [|discriminate].
      injection H as ->; reflexivity.
    - intros H; injection H as <-; auto.
    - intros [H | (_ & ->)]; [discriminate | reflexivity]. }
  assert (Herrors : read errors_field data = Ok (errors r) <->
                    lookup "errors" data = Some (VList (map VDict (errors r)))).
  { split.
    - intros H.
      apply (read_Required_Ok errors_field data _ eq_refl) in H
        as (v & Hl & H).
      destruct v; try discriminate.
      apply (dict_items_Ok 0) in H; simpl in Hl; congruence.
    - intros H; rewrite (read_given errors_field data _ H); simpl.
      now rewrite (proj2 (dict_items_Ok 0 _ (errors r)) eq_refl). }
  rewrite <- Herror, <- Herrors; split.
  - unfold validate; intros H; accepted_fields H; auto.
  - intros (He & Hm & Hl); unfold validate, model.
    rewrite He, Hm, Hl; now destruct r.
Qed.

Lemma ValidationErrorResponse_accepted_iff_witness :
  validate (VDict [("message", VStr "1 validation error");
                   ("errors", VList [VDict [("type", VStr "missing")]])])
  = Ok (mk "Validation Error" "1 validation error"
          [[("type", VStr "missing")]]).
Proof.
  apply (ValidationErrorResponse_accepted_iff
           [("message", VStr "1 validation error");
            ("errors", VList [VDict [("type", VStr "missing")]])]
           (mk "Validation Error" "1 validation error"
              [[("type", VStr "missing")]])).
  simpl; auto.
Defined.

End ValidationErrorResponseProperties.

(** ** Document schemas *)

Section DocumentInfoProperties.

Import DocumentInfo.

(** X17.  A document information is accepted exactly when the data
    give a string for [source] and, for [metadata], a dict or nothing;
    metadata left out are the empty dict, while [None] given for them
    is rejected. *)
Theorem DocumentInfo_accepted_iff (data : pydict) (r : t) :
  (validate (VDict data) = Ok r <->
   lookup "source" data = Some (VStr (source r))
   /\ (lookup "metadata" data = Some (VDict (metadata r))
       \/ lookup "metadata" data = None /\ metadata r = []))
  /\ (lookup "metadata" data = Some VNone ->
      is_ok (validate (VDict data)) = false).
Proof.
  split.
  - rewrite <- (read_Required_string data source_field (source r)
                  eq_refl eq_refl).
    assert (Hm : read metadata_field data = Ok (metadata r) <->
                 (lookup "metadata" data = Some (VDict (metadata r))
                  \/ lookup "metadata" data = None /\ metadata r = [])).
    { unfold read; simpl name; simpl default.
      change (validator metadata_field) with dict_validator.
      destruct (lookup "metadata" data) as [v|]; split.
      - intros H; apply at_loc_Ok, dict_validator_Ok in H as ->; auto.
      - intros [H | (H & _)]; [|discriminate].
        injection H as ->; reflexivity.
      - intros H; injection H as <-; auto.
      - intros [H | (_ & ->)]; [discriminate | reflexivity]. }
    rewrite <- Hm; split.
    + unfold validate; intros H; accepted_fields H; auto.
    + intros (Hs & Hd); unfold validate, model.
      rewrite Hs, Hd; now destruct r.
  - intros H; unfold validate, model.
    rewrite is_ok_ap, is_ok_fmap, (read_given metadata_field data _ H).
    apply andb_false_r.
Qed.

Lemma DocumentInfo_accepted_iff_witness :
  validate (VDict [("source", VStr "rag.pdf")]) = Ok (mk "rag.pdf" []).
Proof.
  apply (DocumentInfo_accepted_iff [("source", VStr "rag.pdf")]
           (mk "rag.pdf" [])).
  simpl; auto.
Defined.

End DocumentInfoProperties.
